(** * sotisimmo: the selection-state and derived-dataset pipeline of [App]

    A shallow embedding of [src/modules/GUI/home.py]: the department
    selector and the session-state invalidation, the year selector and the
    choice of the fetcher, the enumeration of property types, and the
    price-per-square-metre normalisation of the fetched data frame.

    Conventions
    - Python [str] values are [string]s of UTF-8 bytes; comparing them byte
      by byte is comparing them by code point, which is what [sorted] does.
    - [st.session_state] is a finite map from keys to stored scalars; a
      key that is absent is not a key that holds [None]. A widget created
      with [key=...] leaves the value it answers under that key.
    - Data frames are Python objects: they live in a heap and are handled
      through references, so that [.copy()] and the in-place column
      assignment keep their meaning.
    - The [type_local] column holds a string in every row. A frame with a
      missing value there is outside this model: on such a frame line
      149's [sorted] may compare a float with a string and raise
      [TypeError], a path no run of the model takes and no theorem below
      speaks of.
    - Numeric columns are float64 ([spec_float] at precision 53, exponent
      bound 1024) or int64; [/] is IEEE 754 division, [round()] rounds
      ties to even, [astype(int)] targets int64.
    - A run is a function from a world (session state, heap, trace of the
      calls made, attributes of [self]) to a result and a world; an
      exception keeps the world reached when it was raised.
    - The modules that [home.py] imports and that are not at hand
      ([modules.config], [modules.data_loader], [ui_components]) are the
      fields of [Externals]. *)

From Stdlib Require Import ZArith List Ascii String DecimalString Bool Lia.
From Stdlib Require Import Sorting.Sorted.
From Stdlib Require Import Floats.SpecFloat.
From stdpp Require Import gmap strings list.


(** ** Python string and list primitives used by the module *)

Module Py.

(** [str(n)] for a non-negative integer. *)
Definition str_of_nat (n : nat) : string :=
  NilEmpty.string_of_uint (Nat.to_uint n).

Fixpoint repeat_char (c : ascii) (n : nat) : string :=
  match n with
  | O => EmptyString
  | S k => String c (repeat_char c k)
  end.

(** [s.zfill(width)]: zeros are inserted after a leading sign. *)
Definition zfill (width : nat) (s : string) : string :=
  let pad := repeat_char "0"%char (width - String.length s) in
  match s with
  | String c rest =>
      if (Ascii.eqb c "+"%char || Ascii.eqb c "-"%char)%bool
      then String c (pad +:+ rest)
      else pad +:+ s
  | EmptyString => pad
  end.

(** [range(lo, hi)] *)
Definition range (lo hi : nat) : list nat := seq lo (hi - lo).

(** [l.index(x)]: position of the first occurrence, [None] standing for
    the [ValueError] raised when there is none. *)
Fixpoint index (x : string) (l : list string) : option nat :=
  match l with
  | [] => None
  | y :: l' => if String.eqb y x then Some 0 else S <$> index x l'
  end.

(** [l.remove(x)]: drops the first occurrence, [None] for [ValueError]. *)
Fixpoint remove (x : string) (l : list string) : option (list string) :=
  match l with
  | [] => None
  | y :: l' => if String.eqb y x then Some l' else cons y <$> remove x l'
  end.

(** [s.split(" ")]: cut at every single space; the result is never
    empty. [split_go cur s] carries the piece being read, reversed. *)
Fixpoint split_go (cur : string) (s : string) : list string :=
  match s with
  | EmptyString => [String.rev cur]
  | String c s' =>
      if Ascii.eqb c " "%char
      then String.rev cur :: split_go EmptyString s'
      else split_go (String c cur) s'
  end.

Definition split_space (s : string) : list string := split_go EmptyString s.

(** [l[-1]], [None] for the [IndexError] of an empty list. *)
Definition last_item (l : list string) : option string := last l.

(** [sub in s] *)
Fixpoint contains (sub s : string) : bool :=
  if String.prefix sub s then true
  else match s with
       | EmptyString => false
       | String _ s' => contains sub s'
       end.

(** [s.isdigit()] on ASCII text: not empty, decimal digits only. *)
Definition is_digit (c : ascii) : bool :=
  (48 <=? nat_of_ascii c) && (nat_of_ascii c <=? 57).

Fixpoint all_digits (s : string) : bool :=
  match s with
  | EmptyString => true
  | String c s' => is_digit c && all_digits s'
  end.

Definition isdigit (s : string) : bool :=
  match s with
  | EmptyString => false
  | _ => all_digits s
  end.

End Py.

(** ** The department selector *)

(** Lines 99-101: two-digit codes 01..95 without 20, then the overseas
    departments and the two Corsican ones. [None] would be the
    [ValueError] of [remove]. *)
Definition departments : option (list string) :=
  l ← Py.remove "20" (map (fun i => Py.zfill 2 (Py.str_of_nat i)) (Py.range 1 96));
  Some (l ++ ["971"; "972"; "973"; "974"; "2A"; "2B"]).

(** The hundred codes, written out. *)
Definition department_codes : list string :=
  ["01"; "02"; "03"; "04"; "05"; "06"; "07"; "08"; "09"; "10"; "11"; "12";
   "13"; "14"; "15"; "16"; "17"; "18"; "19"; "21"; "22"; "23"; "24"; "25";
   "26"; "27"; "28"; "29"; "30"; "31"; "32"; "33"; "34"; "35"; "36"; "37";
   "38"; "39"; "40"; "41"; "42"; "43"; "44"; "45"; "46"; "47"; "48"; "49";
   "50"; "51"; "52"; "53"; "54"; "55"; "56"; "57"; "58"; "59"; "60"; "61";
   "62"; "63"; "64"; "65"; "66"; "67"; "68"; "69"; "70"; "71"; "72"; "73";
   "74"; "75"; "76"; "77"; "78"; "79"; "80"; "81"; "82"; "83"; "84"; "85";
   "86"; "87"; "88"; "89"; "90"; "91"; "92"; "93"; "94"; "95"; "971";
   "972"; "973"; "974"; "2A"; "2B"].

(** ** float64 and int64 arithmetic of the numeric columns *)

Module F64.

Definition prec : Z := 53.
Definition emax : Z := 1024.

(** True division of two float64 values (IEEE 754, round to nearest
    even): a non-zero value over zero is an infinity, zero over zero and
    anything with a NaN are NaN. *)
Definition div (x y : spec_float) : spec_float := SFdiv prec emax x y.

(** An int64 operand of [/] is first converted to float64. *)
Definition of_int (z : Z) : spec_float := binary_normalize prec emax z 0 false.

(** [numpy.isfinite] *)
Definition is_finite (x : spec_float) : bool :=
  match x with
  | S754_zero _ | S754_finite _ _ _ => true
  | S754_infinity _ | S754_nan => false
  end.

Definition is_zero (x : spec_float) : bool :=
  match x with
  | S754_zero _ => true
  | _ => false
  end.

(** [m / 2^k] rounded to the nearest integer, ties to the even one. *)
Definition round_half_even (m : Z) (k : positive) : Z :=
  let q := (m / 2 ^ Zpos k)%Z in
  let r := (m mod 2 ^ Zpos k)%Z in
  match (2 * r ?= 2 ^ Zpos k)%Z with
  | Lt => q
  | Gt => (q + 1)%Z
  | Eq => if Z.even q then q else (q + 1)%Z
  end.

(** [Series.round()] with no decimals is [numpy.rint]: the nearest
    integral float64, ties to even, the sign kept on a zero result;
    infinities and NaN pass through. *)
Definition rint (x : spec_float) : spec_float :=
  match x with
  | S754_finite s m (Zneg k) =>
      match round_half_even (Zpos m) k with
      | Zpos n => binary_round prec emax s n 0
      | _ => S754_zero s
      end
  | _ => x
  end.

(** The value of a finite float64 truncated towards zero. *)
Definition trunc (x : spec_float) : Z :=
  match x with
  | S754_finite s m (Zneg k) => cond_Zopp s (Zpos m / 2 ^ Zpos k)
  | S754_finite s m e => cond_Zopp s (Zpos m * 2 ^ e)
  | _ => 0
  end.

Definition int64_min : Z := - 2 ^ 63.
Definition int64_max : Z := 2 ^ 63 - 1.

(** The C conversion behind [astype(int)] on a finite float64: the value
    truncated towards zero. Outside of the int64 range its result is left
    to the platform: [wild] gives it. *)
Definition to_int64 (wild : spec_float -> Z) (x : spec_float) : Z :=
  let z := trunc x in
  if ((int64_min <=? z) && (z <=? int64_max))%Z then z else wild x.

End F64.

(** ** Python values, rows and data frames *)

(** The scalars that travel through the selectors and the session state. *)
Inductive pyval :=
| PNone
| PBool (b : bool)
| PInt (z : Z)
| PStr (s : string).

Global Instance pyval_eq_dec : EqDecision pyval.
Proof. solve_decision. Defined.

(** [str(v)], as an f-string and [str.format] render a value. *)
Definition py_str (v : pyval) : string :=
  match v with
  | PNone => "None"
  | PBool true => "True"
  | PBool false => "False"
  | PInt z => NilEmpty.string_of_int (Z.to_int z)
  | PStr s => s
  end.

(** A cell of a numeric column. *)
Inductive num :=
| Int64 (z : Z)
| Float64 (x : spec_float).

Definition to_float (n : num) : spec_float :=
  match n with
  | Int64 z => F64.of_int z
  | Float64 x => x
  end.

(** One transaction: the three columns the module reads, and the rest.
    [type_local] is a string: rows without a type are not represented. *)
Record Row := {
  valeur_fonciere : num;
  surface_reelle_bati : num;
  type_local : string;
  other_columns : list (string * pyval)
}.

(** A data frame, row by row in index order. *)
Notation DataFrame := (list Row) (only parsing).

Definition set_valeur_fonciere (r : Row) (v : num) : Row :=
  {| valeur_fonciere := v;
     surface_reelle_bati := surface_reelle_bati r;
     type_local := type_local r;
     other_columns := other_columns r |}.

(** ** Exceptions and results *)

Inductive exn :=
| ValueError
| AttributeError
| IndexError
| TypeError
| IntCastingNaNError
| ReferenceError.

Inductive result (A : Type) :=
| Ok (a : A)
| Raise (e : exn).
Arguments Ok {A} a.
Arguments Raise {A} e.

(** ** Type Filter: the property types present in a frame *)

(** [Series.unique()]: the distinct values in order of first appearance,
    found with a hash table of the values already seen. *)
Fixpoint unique_go (seen : gset string) (l : list string) : list string :=
  match l with
  | [] => []
  | x :: l' =>
      if decide (x ∈ seen) then unique_go seen l'
      else x :: unique_go ({[x]} ∪ seen) l'
  end.

Definition unique (l : list string) : list string := unique_go ∅ l.

(** [sorted(...)] on strings: a stable sort that only asks [<]. *)
Fixpoint sorted_insert (x : string) (l : list string) : list string :=
  match l with
  | [] => [x]
  | y :: l' => if String.ltb y x then y :: sorted_insert x l' else x :: y :: l'
  end.

Fixpoint sorted (l : list string) : list string :=
  match l with
  | [] => []
  | x :: l' => sorted_insert x (sorted l')
  end.

(** The order [sorted] ranks strings by. *)
Definition str_lt (a b : string) : Prop := String.ltb a b = true.

(** Line 149. *)
Definition type_filter (df : DataFrame) : list string :=
  sorted (unique (map type_local df)).

(** ** Normalization Engine: price per square metre *)

Section Normalization.

(** What the platform's float-to-int64 conversion gives out of range. *)
Variable wild : spec_float -> Z.

(** [valeur_fonciere / surface_reelle_bati], row by row. *)
Definition price_per_area (r : Row) : spec_float :=
  F64.div (to_float (valeur_fonciere r)) (to_float (surface_reelle_bati r)).

Definition series_div (df : DataFrame) : list spec_float := map price_per_area df.

Definition series_round (s : list spec_float) : list spec_float := map F64.rint s.

(** [Series.astype(int)]: refuses the whole column when one value is an
    infinity or NaN, converts every value otherwise. *)
Definition series_astype_int (s : list spec_float) : result (list Z) :=
  if forallb F64.is_finite s then Ok (map (F64.to_int64 wild) s)
  else Raise IntCastingNaNError.

(** [df["valeur_fonciere"] = column], the column having one value per row. *)
Definition assign_valeur_fonciere (df : DataFrame) (column : list Z) : DataFrame :=
  zip_with (fun r z => set_valeur_fonciere r (Int64 z)) df column.

(** The test [astype(int)] makes on the value computed for [r]. *)
Definition finite_price (r : Row) : bool :=
  F64.is_finite (F64.rint (price_per_area r)).

(** The row a successful assignment leaves in the place of [r]. *)
Definition normalized_row (r : Row) : Row :=
  set_valeur_fonciere r
    (Int64 (F64.to_int64 wild (F64.rint (price_per_area r)))).

(** Lines 160-168 on the frame the step works on. *)
Definition normalization_engine (normalize_by_area : bool) (df : DataFrame)
  : result DataFrame :=
  if normalize_by_area then
    match series_astype_int (series_round (series_div df)) with
    | Ok column => Ok (assign_valeur_fonciere df column)
    | Raise e => Raise e
    end
  else Ok df.

End Normalization.

(** ** The Streamlit run: widgets, session state, heap and attributes *)

(** What the absent modules provide: the credentials and the year
    catalogue of [modules.config], the two fetchers and the summary of
    [modules.data_loader], the session initialiser of [ui_components];
    and what the platform's float-to-int64 conversion gives out of range. *)
Class Externals := {
  Cred : Type;
  bigquery_cred : Cred;
  years_range : list pyval;
  fetch_data_gouv : pyval -> string -> option DataFrame;
  fetch_data_BigQuery : Cred -> pyval -> option DataFrame;
  Summary : Type;
  fetch_summarized_data : Summary;
  init_session_state : gmap string pyval -> gmap string pyval;
  wild : spec_float -> Z
}.

Section Pipeline.

Context {ext : Externals}.

(** Calls that leave the module and writes to [st.session_state], in the
    order they are made. *)
Inductive event :=
| Ev_print (text : string)
| Ev_init_session_state
| Ev_markdown
| Ev_fetch_summarized_data
| Ev_display_sidebar
| Ev_selectbox (label : string) (options : list string) (index : nat)
    (key : option string)
| Ev_checkbox (label : string) (value : bool)
| Ev_multiselect (label : string) (options default : list string)
| Ev_divider
| Ev_expander (label : string)
| Ev_text_input (label : string)
| Ev_info (body : string)
| Ev_warning (body : string)
| Ev_error (body : string)
| Ev_sidebar_error (body : string)
| Ev_fetch_data_gouv (department : pyval) (year : string)
| Ev_fetch_data_BigQuery (cred : Cred) (department : pyval)
| Ev_session_del (key : string)
| Ev_session_set (key : string) (value : pyval)
| Ev_create_plots.

(** What the user has done to each widget; [None] is an untouched widget,
    which answers its default. *)
Record UI := {
  ui_department : option string;
  ui_year : option string;
  ui_local_type : option string;
  ui_normalize : option bool;
  ui_plots : option (list string);
  ui_chatbot : option bool;
  ui_model : option string;
  ui_api_key : string
}.

(** [st.selectbox(label, options, index)]: the user's pick when it is one
    of the options, the option at [index] otherwise, [None] when there is
    no option. *)
Definition widget_selectbox (options : list string) (index : nat)
    (pick : option string) : pyval :=
  match pick with
  | Some p =>
      if bool_decide (p ∈ options) then PStr p
      else from_option PStr PNone (options !! index)
  | None => from_option PStr PNone (options !! index)
  end.

(** [st.multiselect(label, options, default)]: the picked options, in the
    order they were picked. *)
Definition widget_multiselect (options default : list string)
    (pick : option (list string)) : list string :=
  match pick with
  | Some l => filter (fun p => p ∈ options) l
  | None => default
  end.

(** The attributes of [self]; [None] is an attribute not assigned yet. *)
Record App := {
  data_loaded : option bool;
  properties_summarized : option Summary;
  selected_department : option pyval;
  selected_year : option string;
  properties_input : option (option nat);
  local_types : option (list string);
  selected_local_type : option pyval;
  normalize_by_area : option bool;
  selected_plots : option (list string);
  chatbot_checkbox : option bool;
  selected_model : option pyval;
  model_api_key : option string
}.

Definition new_App : App :=
  {| data_loaded := None; properties_summarized := None;
     selected_department := None; selected_year := None;
     properties_input := None; local_types := None;
     selected_local_type := None; normalize_by_area := None;
     selected_plots := None; chatbot_checkbox := None;
     selected_model := None; model_api_key := None |}.

(** The state one run of the script works on. *)
Record World := {
  session_state : gmap string pyval;
  heap : list DataFrame;
  trace : list event;
  self : App
}.

Definition M (A : Type) : Type := World -> result A * World.

Definition ret {A} (a : A) : M A := fun w => (Ok a, w).

Definition bind {A B} (c : M A) (k : A -> M B) : M B :=
  fun w =>
    match c w with
    | (Ok a, w') => k a w'
    | (Raise e, w') => (Raise e, w')
    end.

Definition raise {A} (e : exn) : M A := fun w => (Raise e, w).

Notation "'do' x <- c ; k" := (bind c (fun x => k))
  (at level 10, x name, c at level 100, k at level 200).
Notation "'run' c ; k" := (bind c (fun _ => k))
  (at level 10, c at level 100, k at level 200).

Definition or_raise {A} (e : exn) (o : option A) : M A :=
  match o with
  | Some a => ret a
  | None => raise e
  end.

Definition lift {A} (r : result A) : M A := fun w => (r, w).

Definition emit (e : event) : M unit :=
  fun w => (Ok tt, {| session_state := session_state w; heap := heap w;
                      trace := trace w ++ [e]; self := self w |}).

Definition get_session_state : M (gmap string pyval) :=
  fun w => (Ok (session_state w), w).

Definition put_session_state (ss : gmap string pyval) : M unit :=
  fun w => (Ok tt, {| session_state := ss; heap := heap w;
                      trace := trace w; self := self w |}).

(** [key in st.session_state] *)
Definition session_has (key : string) : M bool :=
  do ss <- get_session_state; ret (bool_decide (is_Some (ss !! key))).

(** [del st.session_state.key], which raises on an absent key. *)
Definition session_del (key : string) : M unit :=
  do ss <- get_session_state;
  match ss !! key with
  | Some _ => run emit (Ev_session_del key); put_session_state (delete key ss)
  | None => raise AttributeError
  end.

(** [st.session_state.key = v] *)
Definition session_set (key : string) (v : pyval) : M unit :=
  do ss <- get_session_state;
  run emit (Ev_session_set key v);
  put_session_state (<[key := v]> ss).

(** What a widget created with [key=...] leaves in [st.session_state]:
    the value it answers, under its key. It is the widget that writes,
    not a statement of the script, so the trace has the widget's event,
    which carries the key, and no [Ev_session_set]. The value answered is
    the front end's, as [UI] has it; what the store held under the key
    at the start of the run is overwritten. *)
Definition widget_state (key : string) (value : pyval) : M unit :=
  do ss <- get_session_state; put_session_state (<[key := value]> ss).

Definition get_heap : M (list DataFrame) := fun w => (Ok (heap w), w).

Definition put_heap (h : list DataFrame) : M unit :=
  fun w => (Ok tt, {| session_state := session_state w; heap := h;
                      trace := trace w; self := self w |}).

(** A new frame object; its reference is returned. *)
Definition alloc (df : DataFrame) : M nat :=
  do h <- get_heap; run put_heap (h ++ [df]); ret (length h).

Definition deref (l : nat) : M DataFrame :=
  do h <- get_heap; or_raise ReferenceError (h !! l).

(** In-place replacement of the content of the object at [l]. *)
Definition store (l : nat) (df : DataFrame) : M unit :=
  do h <- get_heap; put_heap (<[l := df]> h).

(** [df.copy()]: a new object with the same content. *)
Definition df_copy (l : nat) : M nat := do df <- deref l; alloc df.

Definition get_self : M App := fun w => (Ok (self w), w).

Definition put_self (a : App) : M unit :=
  fun w => (Ok tt, {| session_state := session_state w; heap := heap w;
                      trace := trace w; self := a |}).

Definition modify_self (f : App -> App) : M unit :=
  do a <- get_self; put_self (f a).

(** [self.attribute = v], one pair of definitions per attribute: the
    record with the attribute replaced, and the assignment. *)
Definition with_data_loaded (v : bool) (a : App) : App :=
  {| data_loaded := Some v;
     properties_summarized := properties_summarized a;
     selected_department := selected_department a;
     selected_year := selected_year a;
     properties_input := properties_input a; local_types := local_types a;
     selected_local_type := selected_local_type a;
     normalize_by_area := normalize_by_area a;
     selected_plots := selected_plots a;
     chatbot_checkbox := chatbot_checkbox a;
     selected_model := selected_model a; model_api_key := model_api_key a |}.

Definition set_data_loaded (v : bool) : M unit :=
  modify_self (with_data_loaded v).

Definition with_properties_summarized (v : Summary) (a : App) : App :=
  {| data_loaded := data_loaded a; properties_summarized := Some v;
     selected_department := selected_department a;
     selected_year := selected_year a;
     properties_input := properties_input a; local_types := local_types a;
     selected_local_type := selected_local_type a;
     normalize_by_area := normalize_by_area a;
     selected_plots := selected_plots a;
     chatbot_checkbox := chatbot_checkbox a;
     selected_model := selected_model a; model_api_key := model_api_key a |}.

Definition set_properties_summarized (v : Summary) : M unit :=
  modify_self (with_properties_summarized v).

Definition with_selected_department (v : pyval) (a : App) : App :=
  {| data_loaded := data_loaded a;
     properties_summarized := properties_summarized a;
     selected_department := Some v; selected_year := selected_year a;
     properties_input := properties_input a; local_types := local_types a;
     selected_local_type := selected_local_type a;
     normalize_by_area := normalize_by_area a;
     selected_plots := selected_plots a;
     chatbot_checkbox := chatbot_checkbox a;
     selected_model := selected_model a; model_api_key := model_api_key a |}.

Definition set_selected_department (v : pyval) : M unit :=
  modify_self (with_selected_department v).

Definition with_selected_year (v : string) (a : App) : App :=
  {| data_loaded := data_loaded a;
     properties_summarized := properties_summarized a;
     selected_department := selected_department a;
     selected_year := Some v; properties_input := properties_input a;
     local_types := local_types a;
     selected_local_type := selected_local_type a;
     normalize_by_area := normalize_by_area a;
     selected_plots := selected_plots a;
     chatbot_checkbox := chatbot_checkbox a;
     selected_model := selected_model a; model_api_key := model_api_key a |}.

Definition set_selected_year (v : string) : M unit :=
  modify_self (with_selected_year v).

Definition with_properties_input (v : option nat) (a : App) : App :=
  {| data_loaded := data_loaded a;
     properties_summarized := properties_summarized a;
     selected_department := selected_department a;
     selected_year := selected_year a; properties_input := Some v;
     local_types := local_types a;
     selected_local_type := selected_local_type a;
     normalize_by_area := normalize_by_area a;
     selected_plots := selected_plots a;
     chatbot_checkbox := chatbot_checkbox a;
     selected_model := selected_model a; model_api_key := model_api_key a |}.

Definition set_properties_input (v : option nat) : M unit :=
  modify_self (with_properties_input v).

Definition with_local_types (v : list string) (a : App) : App :=
  {| data_loaded := data_loaded a;
     properties_summarized := properties_summarized a;
     selected_department := selected_department a;
     selected_year := selected_year a;
     properties_input := properties_input a; local_types := Some v;
     selected_local_type := selected_local_type a;
     normalize_by_area := normalize_by_area a;
     selected_plots := selected_plots a;
     chatbot_checkbox := chatbot_checkbox a;
     selected_model := selected_model a; model_api_key := model_api_key a |}.

Definition set_local_types (v : list string) : M unit :=
  modify_self (with_local_types v).

Definition with_selected_local_type (v : pyval) (a : App) : App :=
  {| data_loaded := data_loaded a;
     properties_summarized := properties_summarized a;
     selected_department := selected_department a;
     selected_year := selected_year a;
     properties_input := properties_input a; local_types := local_types a;
     selected_local_type := Some v;
     normalize_by_area := normalize_by_area a;
     selected_plots := selected_plots a;
     chatbot_checkbox := chatbot_checkbox a;
     selected_model := selected_model a; model_api_key := model_api_key a |}.

Definition set_selected_local_type (v : pyval) : M unit :=
  modify_self (with_selected_local_type v).

Definition with_normalize_by_area (v : bool) (a : App) : App :=
  {| data_loaded := data_loaded a;
     properties_summarized := properties_summarized a;
     selected_department := selected_department a;
     selected_year := selected_year a;
     properties_input := properties_input a; local_types := local_types a;
     selected_local_type := selected_local_type a;
     normalize_by_area := Some v; selected_plots := selected_plots a;
     chatbot_checkbox := chatbot_checkbox a;
     selected_model := selected_model a; model_api_key := model_api_key a |}.

Definition set_normalize_by_area (v : bool) : M unit :=
  modify_self (with_normalize_by_area v).

Definition with_selected_plots (v : list string) (a : App) : App :=
  {| data_loaded := data_loaded a;
     properties_summarized := properties_summarized a;
     selected_department := selected_department a;
     selected_year := selected_year a;
     properties_input := properties_input a; local_types := local_types a;
     selected_local_type := selected_local_type a;
     normalize_by_area := normalize_by_area a; selected_plots := Some v;
     chatbot_checkbox := chatbot_checkbox a;
     selected_model := selected_model a; model_api_key := model_api_key a |}.

Definition set_selected_plots (v : list string) : M unit :=
  modify_self (with_selected_plots v).

Definition with_chatbot_checkbox (v : bool) (a : App) : App :=
  {| data_loaded := data_loaded a;
     properties_summarized := properties_summarized a;
     selected_department := selected_department a;
     selected_year := selected_year a;
     properties_input := properties_input a; local_types := local_types a;
     selected_local_type := selected_local_type a;
     normalize_by_area := normalize_by_area a;
     selected_plots := selected_plots a; chatbot_checkbox := Some v;
     selected_model := selected_model a; model_api_key := model_api_key a |}.

Definition set_chatbot_checkbox (v : bool) : M unit :=
  modify_self (with_chatbot_checkbox v).

Definition with_selected_model (v : pyval) (a : App) : App :=
  {| data_loaded := data_loaded a;
     properties_summarized := properties_summarized a;
     selected_department := selected_department a;
     selected_year := selected_year a;
     properties_input := properties_input a; local_types := local_types a;
     selected_local_type := selected_local_type a;
     normalize_by_area := normalize_by_area a;
     selected_plots := selected_plots a;
     chatbot_checkbox := chatbot_checkbox a; selected_model := Some v;
     model_api_key := model_api_key a |}.

Definition set_selected_model (v : pyval) : M unit :=
  modify_self (with_selected_model v).

Definition with_model_api_key (v : string) (a : App) : App :=
  {| data_loaded := data_loaded a;
     properties_summarized := properties_summarized a;
     selected_department := selected_department a;
     selected_year := selected_year a;
     properties_input := properties_input a; local_types := local_types a;
     selected_local_type := selected_local_type a;
     normalize_by_area := normalize_by_area a;
     selected_plots := selected_plots a;
     chatbot_checkbox := chatbot_checkbox a;
     selected_model := selected_model a; model_api_key := Some v |}.

Definition set_model_api_key (v : string) : M unit :=
  modify_self (with_model_api_key v).

(** [a == b] on scalars; a bool compares as the integer it is. *)
Definition py_eqb (a b : pyval) : bool :=
  match a, b with
  | PBool x, PInt z | PInt z, PBool x => (z =? (if x then 1 else 0))%Z
  | _, _ => bool_decide (a = b)
  end.

(** [st.session_state.key], which raises on an absent key. *)
Definition session_get (key : string) : M pyval :=
  do ss <- get_session_state; or_raise AttributeError (ss !! key).

(** Lines 99-101. *)
Definition build_departments : M (list string) :=
  or_raise ValueError departments.

(** The test of lines 108-112 on a store. *)
Definition department_changed (ss : gmap string pyval) (department : pyval)
  : bool :=
  match ss !! "previous_selected_department" with
  | Some previous => negb (py_eqb previous department)
  | None => false
  end.

(** The deletions of lines 113-116 on a store, as events. *)
Definition postcode_deletions (ss : gmap string pyval) : list event :=
  (if bool_decide (is_Some (ss !! "selected_postcode_title"))
   then [Ev_session_del "selected_postcode_title"] else [])
  ++ (if bool_decide (is_Some (ss !! "selected_postcode"))
      then [Ev_session_del "selected_postcode"] else []).

(** Lines 107-119: forget the postcode when the department has changed,
    then record the department. *)
Definition update_previous_department (department : pyval) : M unit :=
  do has_previous <- session_has "previous_selected_department";
  do changed <-
    (if has_previous then
       do previous <- session_get "previous_selected_department";
       ret (negb (py_eqb previous department))
     else ret false);
  run (if changed then
         do has_title <- session_has "selected_postcode_title";
         run (if has_title then session_del "selected_postcode_title"
              else ret tt);
         do has_postcode <- session_has "selected_postcode";
         if has_postcode then session_del "selected_postcode" else ret tt
       else ret tt);
  session_set "previous_selected_department" department.

(** Lines 134-142: one fetcher is called, chosen by the year. The frame
    it returns is an object of its own, kept in [self.properties_input]. *)
Definition load_data (department : pyval) (year : string) : M (option nat) :=
  do fetched <-
    (if negb (Py.contains "2024" year) then
       run emit (Ev_fetch_data_gouv department year);
       ret (fetch_data_gouv department year)
     else
       run emit (Ev_fetch_data_BigQuery bigquery_cred department);
       ret (fetch_data_BigQuery bigquery_cred department));
  do reference <-
    match fetched with
    | Some df => do l <- alloc df; ret (Some l)
    | None => ret None
    end;
  run set_properties_input reference;
  ret reference.

(** Lines 160-168: the price column of the object at [l] is replaced in
    place; nothing is written when the conversion raises. *)
Definition normalize_in_place (l : nat) : M unit :=
  do df <- deref l;
  do column <- lift (series_astype_int wild (series_round (series_div df)));
  store l (assign_valeur_fonciere df column).

Definition plot_names : list string :=
  ["Carte"; "Fig. 1"; "Fig. 2"; "Fig. 3"; "Fig. 4"].

Definition model_names : list string :=
  ["GPT 3.5"; "GPT 4"; "Llama2-7B"; "Llama2-13B"; "Mistral"].

(** Lines 177-204. *)
Definition chatbot_panel (ui : UI) : M unit :=
  run emit Ev_divider;
  run emit (Ev_expander "Chatbot (Optionnel)");
  let enabled := default false (ui_chatbot ui) in
  run emit (Ev_checkbox "Activer le chat bot" false);
  run set_chatbot_checkbox enabled;
  let model := widget_selectbox model_names 1 (ui_model ui) in
  run emit (Ev_selectbox "Modèle" model_names 1 None);
  run set_selected_model model;
  run emit (Ev_text_input "Entrez une clé API 🔑");
  run set_model_api_key (ui_api_key ui);
  run emit (Ev_info "ℹ️ Votre clé API n'est pas conservée. Elle sera automatiquement supprimée lorsque vous fermerez ou rechargerez cette page.");
  if enabled then
    match model with
    | PStr name =>
        if Py.contains "GPT" name then
          if String.eqb (ui_api_key ui) "" then
            emit (Ev_warning "⚠️ Entrez une clé API **Open AI**.")
          else ret tt
        else
          emit (Ev_error "⚠️ Ce modèle n'est pas encore disponible. Veuillez utiliser GPT.")
    | _ => raise TypeError
    end
  else ret tt.

(** Lines 98-105. *)
Definition select_department (ui : UI) : M pyval :=
  do departments <- build_departments;
  do default_dept <- or_raise ValueError (Py.index "06" departments);
  run emit (Ev_selectbox "Département" departments default_dept None);
  let department :=
    widget_selectbox departments default_dept (ui_department ui) in
  run set_selected_department department;
  ret department.

(** Line 123. *)
Definition year_labels : list string :=
  map (fun year => "Vendus en " +:+ py_str year) years_range.

(** Lines 121-132. *)
Definition select_year (ui : UI) : M string :=
  let years := year_labels in
  do default_year <- or_raise ValueError (Py.index "Vendus en 2023" years);
  run emit (Ev_selectbox "Année" years default_year None);
  do label <-
    match widget_selectbox years default_year (ui_year ui) with
    | PStr s => ret s
    | _ => raise AttributeError
    end;
  do year <- or_raise IndexError (Py.last_item (Py.split_space label));
  run set_selected_year year;
  ret year.

(** Lines 144-204, on the fetched object [original]. *)
Definition prepare_frame (ui : UI) (department : pyval) (year : string)
    (original : nat) : M unit :=
  do l <- df_copy original;
  run set_properties_input (Some l);
  do df <- deref l;
  let types := type_filter df in
  run set_local_types types;
  let key := "local_type_" +:+ py_str department +:+ "_" +:+ year in
  run emit (Ev_selectbox "Type de bien" types 0 (Some key));
  let selected := widget_selectbox types 0 (ui_local_type ui) in
  run widget_state key selected;
  run set_selected_local_type selected;
  let normalize := default true (ui_normalize ui) in
  run emit (Ev_checkbox "Prix au m²" true);
  run set_normalize_by_area normalize;
  run (if normalize then normalize_in_place l else ret tt);
  run emit (Ev_multiselect "Supprimer ou ajouter des graphiques"
              plot_names plot_names);
  run set_selected_plots
        (widget_multiselect plot_names plot_names (ui_plots ui));
  chatbot_panel ui.

(** [App.initial_request], lines 74-206. *)
Definition initial_request (ui : UI) : M unit :=
  do department <- select_department ui;
  run update_previous_department department;
  do year <- select_year ui;
  do fetched <- load_data department year;
  match fetched with
  | Some original => prepare_frame ui department year original
  | None => ret tt
  end.

(** The message of lines 68-72. *)
Definition no_information (department : pyval) (year : string) : string :=
  "Pas d'information disponible pour le département " +:+ py_str department
  +:+ " en " +:+ year +:+ ". Sélectionnez une autre configuration.".

(** Lines 64-72: plots when there are types, the message when the frame
    has none, nothing when there is no frame. *)
Definition display_results : M unit :=
  do a <- get_self;
  do input <- or_raise AttributeError (properties_input a);
  match input with
  | Some _ =>
      do types <- or_raise AttributeError (local_types a);
      match types with
      | _ :: _ => emit Ev_create_plots
      | [] =>
          do department <- or_raise AttributeError (selected_department a);
          do year <- or_raise AttributeError (selected_year a);
          emit (Ev_sidebar_error (no_information department year))
      end
  | None => ret tt
  end.

(** [App.__init__], lines 49-72. *)
Definition App_init (ui : UI) : M unit :=
  run emit (Ev_print "Init the app...");
  run emit Ev_init_session_state;
  do ss <- get_session_state;
  run put_session_state (init_session_state ss);
  run emit Ev_markdown;
  run set_data_loaded true;
  run emit Ev_fetch_summarized_data;
  run set_properties_summarized fetch_summarized_data;
  run emit Ev_display_sidebar;
  run initial_request ui;
  display_results.

(** Kinds of events. *)
Definition is_fetch_call (e : event) : bool :=
  match e with
  | Ev_fetch_data_gouv _ _ | Ev_fetch_data_BigQuery _ _ => true
  | _ => false
  end.

(** The statements of the script that write to the store: the
    assignments and the deletions. *)
Definition is_session_write (e : event) : bool :=
  match e with
  | Ev_session_del _ | Ev_session_set _ _ => true
  | _ => false
  end.

Definition is_widget (e : event) : bool :=
  match e with
  | Ev_selectbox _ _ _ _ | Ev_checkbox _ _ | Ev_multiselect _ _ _
  | Ev_divider | Ev_expander _ | Ev_text_input _
  | Ev_info _ | Ev_warning _ | Ev_error _ => true
  | _ => false
  end.

(** What the main page shows at the end: the plots or the message. *)
Definition is_display (e : event) : bool :=
  match e with
  | Ev_sidebar_error _ | Ev_create_plots => true
  | _ => false
  end.

(** The fetcher calls of a trace. *)
Definition fetch_calls (t : list event) : list event :=
  List.filter is_fetch_call t.

(** What [__init__] has emitted when it reaches [initial_request]. *)
Definition init_events : list event :=
  [Ev_print "Init the app..."; Ev_init_session_state; Ev_markdown;
   Ev_fetch_summarized_data; Ev_display_sidebar].

(** The frame is one a fetcher has returned. *)
Definition fetched_frame (df : DataFrame) : Prop :=
  exists d y,
    fetch_data_gouv d y = Some df \/ fetch_data_BigQuery bigquery_cred d = Some df.

(** The attributes the chatbot panel leaves alone. *)
Definition same_selection (a a' : App) : Prop :=
  data_loaded a' = data_loaded a
  /\ properties_summarized a' = properties_summarized a
  /\ selected_department a' = selected_department a
  /\ selected_year a' = selected_year a
  /\ properties_input a' = properties_input a
  /\ local_types a' = local_types a
  /\ selected_local_type a' = selected_local_type a
  /\ normalize_by_area a' = normalize_by_area a
  /\ selected_plots a' = selected_plots a.

(** One evaluation of the script: a new [App] over the session state the
    previous evaluation left. *)
Definition evaluate (ss : gmap string pyval) (ui : UI) : result unit * World :=
  App_init ui {| session_state := ss; heap := []; trace := []; self := new_App |}.

End Pipeline.

(** ** The script around the class: lines 26-40 and 209-215 *)

Section Script.

Context {ext : Externals}.

(** What the module itself does when Streamlit runs it: the four
    configuration reads, the analytics calls, and the events of [App()]. *)
Inductive script_event :=
| Sc_firebase_credentials
| Sc_azure_credentials
| Sc_bigquery_credentials
| Sc_data_URL
| Sc_NamedTemporaryFile
| Sc_json_dump (credentials : string)
| Sc_flush
| Sc_start_tracking (collection : string)
| Sc_stop_tracking (collection : string)
| Sc_print (text : string)
| Sc_app (e : event).

(** Lines 31-40: with credentials the key file is written and tracking
    starts; [None] stands for every value the [if] takes for false. *)
Definition open_tracking (firebase_cred : option string) : list script_event :=
  match firebase_cred with
  | Some credentials =>
      [Sc_NamedTemporaryFile; Sc_json_dump credentials; Sc_flush;
       Sc_start_tracking "sotisimmo_analytics"]
  | None => [Sc_print "No credentials were found. Analytics will not be tracked."]
  end.

(** Lines 209-212, which come before the call of [App()]. *)
Definition close_tracking (firebase_cred : option string) : list script_event :=
  match firebase_cred with
  | Some _ => [Sc_stop_tracking "sotisimmo_analytics"]
  | None => []
  end.

(** The module from its first line to its last; [is_main] is
    [__name__ == "__main__"]. *)
Definition script (firebase_cred : option string) (is_main : bool)
    (ss : gmap string pyval) (ui : UI) : result unit * list script_event :=
  let before :=
    [Sc_firebase_credentials; Sc_azure_credentials; Sc_bigquery_credentials;
     Sc_data_URL]
    ++ open_tracking firebase_cred ++ close_tracking firebase_cred in
  if is_main then
    ((evaluate ss ui).1, before ++ map Sc_app (trace (evaluate ss ui).2))
  else (Ok tt, before).

(** The events that happen while tracking is on. *)
Fixpoint tracked_go (tracking : bool) (t : list script_event)
  : list script_event :=
  match t with
  | [] => []
  | Sc_start_tracking _ :: t' => tracked_go true t'
  | Sc_stop_tracking _ :: t' => tracked_go false t'
  | e :: t' => if tracking then e :: tracked_go tracking t'
               else tracked_go tracking t'
  end.

Definition tracked (t : list script_event) : list script_event :=
  tracked_go false t.

(** The keys under which widgets of a trace are registered. *)
Definition widget_keys (t : list event) : list string :=
  omap (fun e => match e with
                 | Ev_selectbox _ _ _ key => key
                 | _ => None
                 end) t.

(** The warnings and errors of the chatbot panel in a trace. *)
Definition is_message (e : event) : bool :=
  match e with
  | Ev_warning _ | Ev_error _ => true
  | _ => false
  end.

End Script.

(** ** Sample data *)

Module Sample.

Definition house : Row :=
  {| valeur_fonciere := Float64 (F64.of_int 150000);
     surface_reelle_bati := Float64 (F64.of_int 50);
     type_local := "Maison";
     other_columns := [("code_postal", PStr "06000")] |}.

Definition flat : Row :=
  {| valeur_fonciere := Float64 (F64.of_int 200000);
     surface_reelle_bati := Int64 80;
     type_local := "Appartement";
     other_columns := [("code_postal", PStr "06100")] |}.

Definition no_area : Row :=
  {| valeur_fonciere := Float64 (F64.of_int 90000);
     surface_reelle_bati := Float64 (S754_zero false);
     type_local := "Dépendance";
     other_columns := [] |}.

Definition negative_area : Row :=
  {| valeur_fonciere := Float64 (F64.of_int 150000);
     surface_reelle_bati := Int64 (-50);
     type_local := "Maison";
     other_columns := [] |}.

Definition frame : DataFrame := [house; flat; house].

(** Conversions out of range give the smallest int64, as on x86-64. *)
Definition indefinite (x : spec_float) : Z := F64.int64_min.

(** An archive that knows department 06 only, holds an empty file for
    2021, and a warehouse that answers nothing. *)
Definition ext : Externals :=
  {| Cred := unit;
     bigquery_cred := tt;
     years_range := [PInt 2020; PInt 2021; PInt 2022; PInt 2023; PInt 2024];
     fetch_data_gouv := fun d y =>
       if decide (d = PStr "06")
       then Some (if String.eqb y "2021" then [] else frame)
       else None;
     fetch_data_BigQuery := fun _ _ => None;
     Summary := unit;
     fetch_summarized_data := tt;
     init_session_state := fun ss => ss;
     wild := indefinite |}.

Definition untouched : UI :=
  {| ui_department := None; ui_year := None; ui_local_type := None;
     ui_normalize := None; ui_plots := None; ui_chatbot := None;
     ui_model := None; ui_api_key := "" |}.

(** The user picks a department and a year and leaves the rest alone. *)
Definition pick (department year : string) : UI :=
  {| ui_department := Some department;
     ui_year := Some ("Vendus en " +:+ year);
     ui_local_type := None; ui_normalize := None; ui_plots := None;
     ui_chatbot := None; ui_model := None; ui_api_key := "" |}.

Definition unticked : UI :=
  {| ui_department := None; ui_year := None; ui_local_type := None;
     ui_normalize := Some false; ui_plots := None; ui_chatbot := None;
     ui_model := None; ui_api_key := "" |}.

(** The store a previous evaluation on department 07 has left. *)
Definition store_07 : gmap string pyval :=
  {[ "previous_selected_department" := PStr "07";
     "selected_postcode" := PStr "07000" ]}.

Definition start (ss : gmap string pyval) : World (ext := ext) :=
  {| session_state := ss; heap := []; trace := []; self := new_App |}.

End Sample.

(** More sample data: a catalogue that stops at 2022, a user who enables
    the chat bot without typing a key, a world whose heap holds one
    frame. *)
Module Sample2.

Definition old_catalogue : Externals :=
  {| Cred := unit;
     bigquery_cred := tt;
     years_range := [PInt 2021; PInt 2022];
     fetch_data_gouv := fun _ _ => Some Sample.frame;
     fetch_data_BigQuery := fun _ _ => None;
     Summary := unit;
     fetch_summarized_data := tt;
     init_session_state := fun ss => ss;
     wild := Sample.indefinite |}.


Definition chat_without_key : UI :=
  {| ui_department := None; ui_year := None; ui_local_type := None;
     ui_normalize := None; ui_plots := None; ui_chatbot := Some true;
     ui_model := Some "GPT 3.5"; ui_api_key := "" |}.

Definition holding (df : DataFrame) : World (ext := Sample.ext) :=
  {| session_state := ∅; heap := [df]; trace := []; self := new_App |}.

End Sample2.

(** ** Facts about the string order and the Type Filter *)

Lemma ltb_leb (a b : string) :
  String.ltb a b = true <-> String.leb a b = true /\ a <> b.
Proof.
  unfold String.ltb, String.leb.
  destruct (String.compare a b) eqn:E; split; try (intros [? ?]); try easy.
  - apply String.compare_eq_iff in E. contradiction.
  - intros _. split; [reflexivity|]. intros ->.
    pose proof (String.compare_antisym b b) as H.
    rewrite E in H. discriminate H.
Qed.

Lemma str_lt_trans (a b c : string) : str_lt a b -> str_lt b c -> str_lt a c.
Proof.
  unfold str_lt. rewrite !ltb_leb. intros [Hab Hne] [Hbc Hne'].
  pose proof (String.le_po) as [[_ Htr] Hanti].
  split.
  - apply Is_true_true. apply (Htr a b c); apply Is_true_true; assumption.
  - intros ->. apply Hne. apply Hanti; apply Is_true_true; assumption.
Qed.

Lemma str_lt_irrefl (a : string) : ~ str_lt a a.
Proof. unfold str_lt. rewrite ltb_leb. intros [_ H]. congruence. Qed.

Lemma not_ltb_lt (a b : string) : String.ltb a b = false -> a <> b -> str_lt b a.
Proof.
  intros Hf Hne. unfold str_lt. apply ltb_leb. split; [|congruence].
  destruct (String.leb_total a b) as [H|H]; [|exact H].
  exfalso. assert (String.ltb a b = true) by (apply ltb_leb; split; assumption).
  congruence.
Qed.

Lemma unique_go_spec (seen : gset string) (l : list string) :
  NoDup (unique_go seen l) /\
  forall x, x ∈ unique_go seen l <-> x ∈ l /\ x ∉ seen.
Proof.
  revert seen. induction l as [|y l IH]; intros seen; simpl.
  - split; [constructor|]. intros x. rewrite elem_of_nil. tauto.
  - destruct (decide (y ∈ seen)) as [Hin|Hnin].
    + destruct (IH seen) as [Hnd Hmem]. split; [exact Hnd|].
      intros x. rewrite Hmem, elem_of_cons. set_solver.
    + destruct (IH ({[y]} ∪ seen)) as [Hnd Hmem]. split.
      * constructor; [|exact Hnd]. rewrite Hmem. set_solver.
      * intros x. rewrite elem_of_cons, Hmem, elem_of_cons.
        destruct (decide (x = y)); set_solver.
Qed.

Lemma unique_NoDup (l : list string) : NoDup (unique l).
Proof. apply unique_go_spec. Qed.

Lemma elem_of_unique (l : list string) (x : string) : x ∈ unique l <-> x ∈ l.
Proof. unfold unique. rewrite (proj2 (unique_go_spec ∅ l)). set_solver. Qed.

Lemma sorted_insert_Permutation (x : string) (l : list string) :
  sorted_insert x l ≡ₚ x :: l.
Proof.
  induction l as [|y l IH]; simpl; [reflexivity|].
  destruct (String.ltb y x); [|reflexivity].
  rewrite IH. apply Permutation_swap.
Qed.

Lemma sorted_Permutation (l : list string) : sorted l ≡ₚ l.
Proof.
  induction l as [|x l IH]; simpl; [reflexivity|].
  rewrite sorted_insert_Permutation. by f_equiv.
Qed.

Lemma sorted_insert_StronglySorted (x : string) (l : list string) :
  x ∉ l -> StronglySorted str_lt l -> StronglySorted str_lt (sorted_insert x l).
Proof.
  induction l as [|y l IH]; intros Hx Hs; simpl.
  - repeat constructor.
  - apply not_elem_of_cons in Hx as [Hxy Hxl].
    apply StronglySorted_inv in Hs as [Hs Hy].
    destruct (String.ltb y x) eqn:E.
    + constructor; [by apply IH|].
      rewrite sorted_insert_Permutation. constructor; assumption.
    + assert (str_lt x y) as Hlt by (apply not_ltb_lt; congruence).
      constructor; [by constructor|].
      constructor; [exact Hlt|].
      eapply Forall_impl; [exact Hy|]. intros z Hz. by eapply str_lt_trans.
Qed.

Lemma sorted_StronglySorted (l : list string) :
  NoDup l -> StronglySorted str_lt (sorted l).
Proof.
  induction 1 as [|x l Hx Hnd IH]; simpl; [constructor|].
  apply sorted_insert_StronglySorted; [|exact IH].
  by rewrite sorted_Permutation.
Qed.

Lemma lookup_map {A B} (f : A -> B) (l : list A) (i : nat) :
  map f l !! i = f <$> l !! i.
Proof.
  revert i. induction l as [|x l IH]; intros [|i]; simpl; try reflexivity.
  apply IH.
Qed.

(** The Type Filter depends on the [type_local] column alone. *)
Lemma type_filter_ext (df df' : DataFrame) :
  map type_local df' = map type_local df -> type_filter df' = type_filter df.
Proof. unfold type_filter. intros ->. reflexivity. Qed.

(** ** Facts about the Normalization Engine *)

Section NormalizationFacts.

Variable wild : spec_float -> Z.

Lemma assign_map (df : DataFrame) (f : Row -> Z) :
  assign_valeur_fonciere df (map f df)
  = map (fun r => set_valeur_fonciere r (Int64 (f r))) df.
Proof.
  unfold assign_valeur_fonciere.
  induction df as [|r df IH]; simpl; [reflexivity|]. by rewrite IH.
Qed.

Lemma all_finite_Forall (df : DataFrame) :
  forallb F64.is_finite (series_round (series_div df)) = true <->
  Forall (fun r => finite_price r = true) df.
Proof.
  unfold series_round, series_div. rewrite forallb_forall, Forall_forall.
  split.
  - intros H r Hr. apply H. apply in_map, in_map. by apply list_elem_of_In.
  - intros H x Hx. apply in_map_iff in Hx as (y & <- & Hy).
    apply in_map_iff in Hy as (r & <- & Hr). apply H. by apply list_elem_of_In.
Qed.

Lemma normalization_engine_finite (df : DataFrame) :
  Forall (fun r => finite_price r = true) df ->
  normalization_engine wild true df = Ok (map (normalized_row wild) df).
Proof.
  intros H. apply all_finite_Forall in H.
  unfold normalization_engine, series_astype_int. rewrite H.
  unfold series_round, series_div. rewrite !map_map.
  by rewrite (assign_map df (fun r => F64.to_int64 wild (F64.rint (price_per_area r)))).
Qed.

Lemma normalization_engine_not_finite (df : DataFrame) :
  ~ Forall (fun r => finite_price r = true) df ->
  normalization_engine wild true df = Raise IntCastingNaNError.
Proof.
  intros H. unfold normalization_engine, series_astype_int.
  destruct (forallb F64.is_finite (series_round (series_div df))) eqn:E;
    [|reflexivity].
  exfalso. apply H. by apply all_finite_Forall.
Qed.

(** The engine either raises the cast's error or rewrites every row. *)
Lemma normalization_engine_cases (flag : bool) (df : DataFrame) :
  normalization_engine wild flag df = Raise IntCastingNaNError
  \/ normalization_engine wild flag df
     = Ok (if flag then map (normalized_row wild) df else df).
Proof.
  destruct flag; [|by right].
  destruct (decide (Forall (fun r => finite_price r = true) df)).
  - right. by apply normalization_engine_finite.
  - left. by apply normalization_engine_not_finite.
Qed.

(** A zero divisor makes the quotient an infinity or NaN, and rounding
    keeps it so. *)
Lemma div_by_zero_not_finite (x y : spec_float) :
  F64.is_zero y = true -> F64.is_finite (F64.rint (F64.div x y)) = false.
Proof. destruct y; try discriminate. intros _. by destruct x. Qed.

Lemma normalized_row_type_local (df : DataFrame) :
  map type_local (map (normalized_row wild) df) = map type_local df.
Proof. rewrite map_map. reflexivity. Qed.


Lemma normalization_engine_types (flag : bool) (df out : DataFrame) :
  normalization_engine wild flag df = Ok out ->
  map type_local out = map type_local df.
Proof.
  destruct (normalization_engine_cases flag df) as [H|H]; rewrite H;
    [discriminate|].
  intros [= <-]. destruct flag; [|reflexivity]. apply normalized_row_type_local.
Qed.

(** C3, as the code has it: a frame with a record whose
    [surface_reelle_bati] is zero is not normalised at all, the integer
    conversion raising on the infinite or NaN quotient; and whatever the
    frame, the engine either raises that error or returns rows whose price
    is an integer, never an infinity or NaN. *)
Theorem zero_area_is_refused (df : DataFrame) (r : Row) :
  r ∈ df ->
  F64.is_zero (to_float (surface_reelle_bati r)) = true ->
  normalization_engine wild true df = Raise IntCastingNaNError
  /\ forall df0 : DataFrame,
       match normalization_engine wild true df0 with
       | Ok out => Forall (fun r' => exists z, valeur_fonciere r' = Int64 z) out
       | Raise e => e = IntCastingNaNError
       end.
Proof.
  intros Hr Hz. split.
  - apply normalization_engine_not_finite. rewrite Forall_forall.
    intros H. specialize (H r Hr). unfold finite_price, price_per_area in H.
    by rewrite div_by_zero_not_finite in H.
  - intros df0. destruct (normalization_engine_cases true df0) as [H|H];
      rewrite H; [reflexivity|].
    apply Forall_forall. intros r' (r0 & -> & _)%list_elem_of_fmap.
    by eexists.
Qed.

(** C4, as the code has it: when the rounded quotient of every record of
    the frame is finite, normalisation returns the frame with, in each
    record, the price replaced by round(valeur_fonciere /
    surface_reelle_bati) as an integer and every other field as it was;
    150000 over 50 gives 3000. *)
Theorem normalization_replaces_price (df : DataFrame) :
  Forall (fun r => finite_price r = true) df ->
  (exists out,
     normalization_engine wild true df = Ok out
     /\ length out = length df
     /\ forall i r, df !! i = Some r ->
          exists r',
            out !! i = Some r'
            /\ valeur_fonciere r'
               = Int64 (F64.to_int64 wild (F64.rint (price_per_area r)))
            /\ surface_reelle_bati r' = surface_reelle_bati r
            /\ type_local r' = type_local r
            /\ other_columns r' = other_columns r)
  /\ valeur_fonciere (normalized_row wild Sample.house) = Int64 3000.
Proof.
  intros H. split; [|reflexivity].
  exists (map (normalized_row wild) df). split; [by apply normalization_engine_finite|].
  split; [by rewrite length_map|].
  intros i r Hi. exists (normalized_row wild r).
  split; [|done]. by rewrite lookup_map, Hi.
Qed.

(** C10: on every frame the engine accepts, with the box ticked or not,
    the sorted distinct property types of the normalised frame are those
    of the raw frame. *)
Theorem type_filter_commutes_with_normalization (flag : bool)
    (df out : DataFrame) :
  normalization_engine wild flag df = Ok out ->
  type_filter out = type_filter df.
Proof. intros H. apply type_filter_ext. by eapply normalization_engine_types. Qed.

End NormalizationFacts.

(** C7: the types the Type Filter enumerates are in strictly ascending
    order of their bytes, hence sorted and without duplicates, and they
    are exactly the [type_local] values of the frame. *)
Theorem type_filter_sorted_distinct (df : DataFrame) :
  StronglySorted str_lt (type_filter df)
  /\ NoDup (type_filter df)
  /\ forall t, t ∈ type_filter df <-> exists r, r ∈ df /\ type_local r = t.
Proof.
  unfold type_filter. split; [|split].
  - apply sorted_StronglySorted, unique_NoDup.
  - rewrite sorted_Permutation. apply unique_NoDup.
  - intros t. rewrite sorted_Permutation, elem_of_unique, list_elem_of_fmap.
    split; intros (r & ? & ?); by exists r.
Qed.

(** ** Facts about the run *)

Section PipelineFacts.

Context {ext : Externals}.

Lemma departments_eq : departments = Some department_codes.
Proof. reflexivity. Qed.

Lemma bind_Ok {A B} (c : M A) (k : A -> M B) (w w' : World) (a : A) :
  c w = (Ok a, w') -> bind c k w = k a w'.
Proof. unfold bind. by intros ->. Qed.

Lemma bind_Raise {A B} (c : M A) (k : A -> M B) (w w' : World) (e : exn) :
  c w = (Raise e, w') -> bind c k w = (Raise e, w').
Proof. unfold bind. by intros ->. Qed.

Lemma widget_selectbox_elem (options : list string) (index : nat)
    (pick : option string) :
  index < length options ->
  exists s, widget_selectbox options index pick = PStr s /\ s ∈ options.
Proof.
  intros Hi. destruct (lookup_lt_is_Some_2 options index Hi) as [o Ho].
  assert (o ∈ options) by (by eapply list_elem_of_lookup_2).
  unfold widget_selectbox. destruct pick as [p|].
  - case_bool_decide; [by exists p|]. rewrite Ho. by exists o.
  - rewrite Ho. by exists o.
Qed.

Lemma widget_selectbox_pick (options : list string) (index : nat) (p : string) :
  p ∈ options -> widget_selectbox options index (Some p) = PStr p.
Proof. intros H. unfold widget_selectbox. by rewrite bool_decide_eq_true_2. Qed.

Lemma index_Some_lt (x : string) (l : list string) (k : nat) :
  Py.index x l = Some k -> k < length l.
Proof.
  revert k. induction l as [|y l IH]; intros k; simpl; [discriminate|].
  destruct (String.eqb y x).
  - intros [= <-]. lia.
  - destruct (Py.index x l) as [j|]; simpl; [|discriminate].
    intros [= <-]. specialize (IH j eq_refl). lia.
Qed.

Lemma index_Some_elem (x : string) (l : list string) :
  x ∈ l -> exists k, Py.index x l = Some k.
Proof.
  induction 1 as [y l|y z l Hin [k IH]]; simpl.
  - rewrite String.eqb_refl. by exists 0.
  - destruct (String.eqb z y); [by exists 0|]. rewrite IH. by exists (S k).
Qed.

Lemma split_go_last (cur s : string) :
  exists y, last (Py.split_go cur s) = Some y.
Proof.
  revert cur. induction s as [|c s IH]; intros cur; simpl.
  - by eexists.
  - destruct (Ascii.eqb c " ").
    + destruct (IH EmptyString) as [y Hy].
      exists y. destruct (Py.split_go EmptyString s) eqn:E; [discriminate|].
      exact Hy.
    + apply IH.
Qed.

Lemma split_go_digits (cur s : string) :
  Py.all_digits s = true -> Py.split_go cur s = [String.rev_app cur s].
Proof.
  revert cur. induction s as [|c s IH]; intros cur; simpl; [reflexivity|].
  intros [Hc Hs]%andb_prop.
  destruct (Ascii.eqb c " ") eqn:E.
  - apply Ascii.eqb_eq in E. subst c. discriminate Hc.
  - by rewrite IH.
Qed.

(** The year of a label is the catalogue entry it was made from. *)
Lemma year_of_label (s : string) :
  Py.isdigit s = true ->
  Py.last_item (Py.split_space ("Vendus en " +:+ s)) = Some s.
Proof.
  intros H. assert (Py.all_digits s = true) as Hd by (by destruct s).
  unfold Py.last_item, Py.split_space. simpl.
  by rewrite split_go_digits.
Qed.

Lemma prefix_length (a b : string) :
  String.prefix a b = true -> String.length a <= String.length b.
Proof.
  revert b. induction a as [|c a IH]; intros [|c' b]; simpl;
    try lia; try discriminate.
  destruct (ascii_dec c c'); [|discriminate]. intros H%IH. lia.
Qed.

Lemma prefix_same_length (a b : string) :
  String.length a = String.length b -> String.prefix a b = true -> a = b.
Proof.
  revert b. induction a as [|c a IH]; intros [|c' b]; simpl; try done.
  intros [= Hl]. destruct (ascii_dec c c') as [->|]; [|discriminate].
  intros H. f_equal. by apply IH.
Qed.

Lemma prefix_refl (a : string) : String.prefix a a = true.
Proof.
  induction a as [|c a IH]; simpl; [reflexivity|].
  by destruct (ascii_dec c c).
Qed.

Lemma contains_cons (sub : string) (c : ascii) (s : string) :
  Py.contains sub (String c s)
  = if String.prefix sub (String c s) then true else Py.contains sub s.
Proof. reflexivity. Qed.

Lemma contains_short (sub s : string) :
  String.length s < String.length sub -> Py.contains sub s = false.
Proof.
  induction s as [|c s IH]; intros Hl.
  - destruct sub; [simpl in Hl; lia|reflexivity].
  - rewrite contains_cons. destruct (String.prefix sub (String c s)) eqn:E.
    + apply prefix_length in E. lia.
    + apply IH. simpl in Hl. lia.
Qed.

(** On a text as long as the pattern, [in] is equality. *)
Lemma contains_same_length (sub s : string) :
  String.length s = String.length sub ->
  Py.contains sub s = true <-> s = sub.
Proof.
  intros Hl. split.
  - destruct s as [|c s].
    + destruct sub; [done|discriminate].
    + rewrite contains_cons.
      destruct (String.prefix sub (String c s)) eqn:E.
      * intros _. symmetry. by apply prefix_same_length.
      * rewrite contains_short; [discriminate|]. simpl in Hl. lia.
  - intros ->. destruct sub as [|c sub]; [reflexivity|].
    by rewrite contains_cons, prefix_refl.
Qed.

Lemma select_department_eq (ui : UI) (w : World) :
  select_department ui w
  = (Ok (widget_selectbox department_codes 5 (ui_department ui)),
     {| session_state := session_state w; heap := heap w;
        trace := trace w ++ [Ev_selectbox "Département" department_codes 5 None];
        self := with_selected_department
                  (widget_selectbox department_codes 5 (ui_department ui))
                  (self w) |}).
Proof. reflexivity. Qed.

Lemma update_previous_department_eq (d : pyval) (w : World) :
  update_previous_department d w
  = (Ok tt,
     {| session_state :=
          <["previous_selected_department" := d]>
            (if department_changed (session_state w) d
             then delete "selected_postcode"
                    (delete "selected_postcode_title" (session_state w))
             else session_state w);
        heap := heap w;
        trace := trace w
                 ++ (if department_changed (session_state w) d
                     then postcode_deletions (session_state w) else [])
                 ++ [Ev_session_set "previous_selected_department" d];
        self := self w |}).
Proof.
  destruct w as [ss h t a].
  unfold update_previous_department, department_changed, postcode_deletions.
  unfold session_has, session_get, session_del, session_set, bind, ret,
    get_session_state, put_session_state, or_raise, emit, raise. cbn.
  destruct (ss !! "previous_selected_department") as [prev|] eqn:Hprev; cbn;
    rewrite ?Hprev; cbn; [|reflexivity].
  destruct (py_eqb prev d); cbn; [reflexivity|].
  destruct (ss !! "selected_postcode_title") as [title|] eqn:Htitle; cbn;
    rewrite ?Htitle; cbn.
  - rewrite lookup_delete_ne by done.
    destruct (ss !! "selected_postcode") as [pc|] eqn:Hpc; cbn;
      rewrite ?lookup_delete_ne, ?Hpc by done; cbn.
    + by rewrite <- !app_assoc.
    + rewrite (delete_id (delete _ ss)) by (by rewrite lookup_delete_ne).
      by rewrite <- !app_assoc.
  - rewrite (delete_id ss "selected_postcode_title") by done.
    destruct (ss !! "selected_postcode") as [pc|] eqn:Hpc; cbn;
      rewrite ?Hpc; cbn.
    + by rewrite <- !app_assoc.
    + by rewrite (delete_id ss) by done.
Qed.
Lemma select_year_no_2023 (ui : UI) (w : World) :
  Py.index "Vendus en 2023" year_labels = None ->
  select_year ui w = (Raise ValueError, w).
Proof. intros H. unfold select_year, bind, or_raise. by rewrite H. Qed.

Lemma select_year_eq (ui : UI) (w : World) (k : nat) :
  Py.index "Vendus en 2023" year_labels = Some k ->
  exists label y,
    widget_selectbox year_labels k (ui_year ui) = PStr label
    /\ label ∈ year_labels
    /\ Py.last_item (Py.split_space label) = Some y
    /\ select_year ui w
       = (Ok y,
          {| session_state := session_state w; heap := heap w;
             trace := trace w ++ [Ev_selectbox "Année" year_labels k None];
             self := with_selected_year y (self w) |}).
Proof.
  intros Hk.
  destruct (widget_selectbox_elem year_labels k (ui_year ui))
    as (label & Hlabel & Hin); [by eapply index_Some_lt|].
  destruct (split_go_last EmptyString label) as [y Hy].
  exists label, y. repeat split; try done.
  unfold select_year, bind, or_raise. rewrite Hk. cbn. rewrite Hlabel. cbn.
  unfold Py.last_item, Py.split_space. rewrite Hy. reflexivity.
Qed.

(** The call the resolver makes and what the fetcher answers. *)
Lemma load_data_eq (d : pyval) (y : string) (w : World) :
  let call :=
    if Py.contains "2024" y then Ev_fetch_data_BigQuery bigquery_cred d
    else Ev_fetch_data_gouv d y in
  let fetched :=
    if Py.contains "2024" y then fetch_data_BigQuery bigquery_cred d
    else fetch_data_gouv d y in
  let reference := (fun _ => length (heap w)) <$> fetched in
  load_data d y w
  = (Ok reference,
     {| session_state := session_state w;
        heap := heap w ++ option_list fetched;
        trace := trace w ++ [call];
        self := with_properties_input reference (self w) |}).
Proof.
  destruct w as [ss h t a]. unfold load_data.
  destruct (Py.contains "2024" y); cbn.
  - destruct (fetch_data_BigQuery bigquery_cred d); cbn; [reflexivity|].
    by rewrite app_nil_r.
  - destruct (fetch_data_gouv d y); cbn; [reflexivity|].
    by rewrite app_nil_r.
Qed.

Lemma chatbot_panel_spec (ui : UI) (w : World) :
  exists evs a',
    chatbot_panel ui w
    = (Ok tt,
       {| session_state := session_state w; heap := heap w;
          trace := trace w ++ evs; self := a' |})
    /\ Forall (fun e => is_widget e = true) evs
    /\ same_selection (self w) a'.
Proof.
  destruct w as [ss h t a].
  destruct (widget_selectbox_elem model_names 1 (ui_model ui))
    as (name & Hname & _); [simpl; lia|].
  unfold chatbot_panel. rewrite Hname. unfold emit, bind. cbn.
  destruct (default false (ui_chatbot ui)); cbn;
    [destruct (Py.contains "GPT" name); cbn;
     [destruct (String.eqb (ui_api_key ui) ""); cbn|]|];
    rewrite <- ?app_assoc; cbn;
    (do 2 eexists; split; [reflexivity|]);
    (split; [by repeat constructor|by repeat split]).
Qed.

(** The in-place step on the object at [l] does what the engine says. *)
Lemma normalize_in_place_eq (l : nat) (df : DataFrame) (w : World) :
  heap w !! l = Some df ->
  normalize_in_place l w
  = match normalization_engine wild true df with
    | Ok out =>
        (Ok tt,
         {| session_state := session_state w; heap := <[l := out]> (heap w);
            trace := trace w; self := self w |})
    | Raise e => (Raise e, w)
    end.
Proof.
  intros Hl. destruct w as [ss h t a]. simpl in Hl.
  unfold normalize_in_place, normalization_engine, deref, store, lift, bind,
    get_heap, put_heap, or_raise, ret. cbn. rewrite Hl. cbn.
  by destruct (series_astype_int wild (series_round (series_div df))).
Qed.

#[local] Arguments chatbot_panel : simpl never.
#[local] Arguments normalize_in_place : simpl never.
#[local] Arguments normalization_engine : simpl never.

(** Lines 144-204 on a fetched frame [df]: a copy is made, the types
    are read from it, and the copy alone is rewritten when the box is
    ticked. *)
Lemma prepare_frame_spec (ui : UI) (d : pyval) (y : string) (original : nat)
    (df : DataFrame) (w : World) :
  heap w !! original = Some df ->
  let flag := default true (ui_normalize ui) in
  let key := "local_type_" +:+ py_str d +:+ "_" +:+ y in
  let selected := widget_selectbox (type_filter df) 0 (ui_local_type ui) in
  exists r df' evs a',
    prepare_frame ui d y original w
    = (r, {| session_state := <[key := selected]> (session_state w);
             heap := heap w ++ [df'];
             trace := trace w
                      ++ Ev_selectbox "Type de bien" (type_filter df) 0 (Some key)
                         :: Ev_checkbox "Prix au m²" true :: evs;
             self := a' |})
    /\ Forall (fun e => is_widget e = true) evs
    /\ (r, df') = match normalization_engine wild flag df with
                  | Ok out => (Ok tt, out)
                  | Raise e => (Raise e, df)
                  end
    /\ data_loaded a' = data_loaded (self w)
    /\ selected_department a' = selected_department (self w)
    /\ selected_year a' = selected_year (self w)
    /\ properties_input a' = Some (Some (length (heap w)))
    /\ local_types a' = Some (type_filter df)
    /\ normalize_by_area a' = Some flag
    /\ selected_local_type a' = Some selected.
Proof.
  intros Hdf. cbv zeta. destruct w as [ss h t a]. simpl in Hdf.
  unfold prepare_frame.
  destruct (default true (ui_normalize ui)) eqn:Eflag.
  - unfold df_copy, deref, alloc, get_heap, put_heap, or_raise, ret, bind.
    cbn. rewrite Hdf. cbn. rewrite list_lookup_middle by done. cbn.
    erewrite normalize_in_place_eq by (cbn; by apply list_lookup_middle).
    destruct (normalization_engine wild true df) as [out|e] eqn:Eng; cbn.
    + match goal with |- context [chatbot_panel ui ?w0] =>
        destruct (chatbot_panel_spec ui w0) as (evs & a' & Hc & Hw & Hs) end.
      rewrite Hc. cbn.
      exists (Ok tt), out, (Ev_multiselect "Supprimer ou ajouter des graphiques"
        plot_names plot_names :: evs), a'.
      split.
      { f_equal. f_equal.
        - replace (length h) with (length h + 0) by lia.
          by rewrite insert_app_r.
        - by rewrite <- !app_assoc. }
      split; [by constructor|]. split; [done|].
      destruct Hs as (?&?&?&?&?&?&?&?&?). cbn in *. by repeat split.
    + exists (Raise e), df, []. eexists.
      split; [by rewrite <- !app_assoc|].
      split; [constructor|]. by repeat split.
  - unfold df_copy, deref, alloc, get_heap, put_heap, or_raise, ret, bind.
    cbn. rewrite Hdf. cbn. rewrite list_lookup_middle by done. cbn.
    match goal with |- context [chatbot_panel ui ?w0] =>
      destruct (chatbot_panel_spec ui w0) as (evs & a' & Hc & Hw & Hs) end.
    rewrite Hc. cbn.
    exists (Ok tt), df, (Ev_multiselect "Supprimer ou ajouter des graphiques"
      plot_names plot_names :: evs), a'.
    split; [by rewrite <- !app_assoc|].
    split; [by constructor|]. split; [done|].
    destruct Hs as (?&?&?&?&?&?&?&?&?). cbn in *. by repeat split.
Qed.

(** What [initial_request] does, path by path. *)
Lemma initial_request_spec (ui : UI) (w : World) :
  let d := widget_selectbox department_codes 5 (ui_department ui) in
  let changed := department_changed (session_state w) d in
  let ss1 :=
    <["previous_selected_department" := d]>
      (if changed
       then delete "selected_postcode"
              (delete "selected_postcode_title" (session_state w))
       else session_state w) in
  let tr1 :=
    trace w
    ++ Ev_selectbox "Département" department_codes 5 None
       :: (if changed then postcode_deletions (session_state w) else [])
       ++ [Ev_session_set "previous_selected_department" d] in
  match Py.index "Vendus en 2023" year_labels with
  | None =>
      initial_request ui w
      = (Raise ValueError,
         {| session_state := ss1; heap := heap w; trace := tr1;
            self := with_selected_department d (self w) |})
  | Some k =>
      exists label y,
        widget_selectbox year_labels k (ui_year ui) = PStr label
        /\ label ∈ year_labels
        /\ Py.last_item (Py.split_space label) = Some y
        /\ let call :=
             if Py.contains "2024" y
             then Ev_fetch_data_BigQuery bigquery_cred d
             else Ev_fetch_data_gouv d y in
           let fetched :=
             if Py.contains "2024" y then fetch_data_BigQuery bigquery_cred d
             else fetch_data_gouv d y in
           let tr2 := tr1 ++ [Ev_selectbox "Année" year_labels k None; call] in
           match fetched with
           | None =>
               initial_request ui w
               = (Ok tt,
                  {| session_state := ss1; heap := heap w; trace := tr2;
                     self := with_properties_input None
                               (with_selected_year y
                                  (with_selected_department d (self w))) |})
           | Some df =>
               let flag := default true (ui_normalize ui) in
               let key := "local_type_" +:+ py_str d +:+ "_" +:+ y in
               let selected :=
                 widget_selectbox (type_filter df) 0 (ui_local_type ui) in
               exists r df' evs a',
                 initial_request ui w
                 = (r, {| session_state := <[key := selected]> ss1;
                          heap := heap w ++ [df; df'];
                          trace := tr2
                                   ++ Ev_selectbox "Type de bien"
                                        (type_filter df) 0 (Some key)
                                      :: Ev_checkbox "Prix au m²" true :: evs;
                          self := a' |})
                 /\ Forall (fun e => is_widget e = true) evs
                 /\ (r, df') = match normalization_engine wild flag df with
                               | Ok out => (Ok tt, out)
                               | Raise e => (Raise e, df)
                               end
                 /\ data_loaded a' = data_loaded (self w)
                 /\ selected_department a' = Some d
                 /\ selected_year a' = Some y
                 /\ properties_input a' = Some (Some (S (length (heap w))))
                 /\ local_types a' = Some (type_filter df)
                 /\ normalize_by_area a' = Some flag
                 /\ selected_local_type a' = Some selected
           end
  end.
Proof.
  cbv zeta. unfold initial_request.
  rewrite (bind_Ok _ _ _ _ _ (select_department_eq ui w)).
  rewrite (bind_Ok _ _ _ _ _ (update_previous_department_eq _ _)).
  cbn [session_state heap trace self].
  set (d := widget_selectbox department_codes 5 (ui_department ui)).
  set (changed := department_changed (session_state w) d).
  rewrite <- !app_assoc. cbn [app].
  destruct (Py.index "Vendus en 2023" year_labels) as [k|] eqn:Hk.
  2: { erewrite bind_Raise; [reflexivity|]. by apply select_year_no_2023. }
  match goal with |- context [bind (select_year ui) _ ?w1] =>
    destruct (select_year_eq ui w1 k Hk) as (label & y & Hw & Hin & Hy & Hsel)
  end.
  exists label, y. repeat (split; [done|]).
  rewrite (bind_Ok _ _ _ _ _ Hsel).
  rewrite (bind_Ok _ _ _ _ _ (load_data_eq _ _ _)).
  cbn [session_state heap trace self].
  rewrite <- !app_assoc. cbn [app].
  destruct (if Py.contains "2024" y then fetch_data_BigQuery bigquery_cred d
            else fetch_data_gouv d y) as [df|] eqn:Hf; cbn.
  2: { by rewrite app_nil_r. }
  match goal with |- context [prepare_frame ui d y ?l ?w1] =>
    destruct (prepare_frame_spec ui d y l df w1)
      as (r & df' & evs & a' & Hp & Hev & Hr & Ha)
  end.
  { cbn. by apply list_lookup_middle. }
  exists r, df', evs, a'. split.
  { rewrite Hp. cbn. f_equal. f_equal. by rewrite <- app_assoc. }
  split; [done|]. split; [done|].
  destruct Ha as (?&?&?&?&?&?&?). cbn in *.
  repeat split; try done.
  by rewrite H2, length_app, Nat.add_1_r.
Qed.

#[local] Arguments initial_request : simpl never.

Lemma App_init_eq (ui : UI) (w : World) :
  App_init ui w
  = bind (initial_request ui) (fun _ => display_results)
      {| session_state := init_session_state (session_state w);
         heap := heap w;
         trace := trace w ++ init_events;
         self := with_properties_summarized fetch_summarized_data
                   (with_data_loaded true (self w)) |}.
Proof.
  destruct w as [ss h t a]. unfold App_init, init_events.
  unfold bind at 1 2 3 4 5 6 7 8 9. cbn. by rewrite <- !app_assoc.
Qed.

Lemma display_results_eq (w : World) :
  display_results w
  = match properties_input (self w) with
    | None => (Raise AttributeError, w)
    | Some None => (Ok tt, w)
    | Some (Some _) =>
        match local_types (self w) with
        | None => (Raise AttributeError, w)
        | Some (_ :: _) => emit Ev_create_plots w
        | Some [] =>
            match selected_department (self w), selected_year (self w) with
            | Some d, Some y => emit (Ev_sidebar_error (no_information d y)) w
            | _, _ => (Raise AttributeError, w)
            end
        end
    end.
Proof.
  destruct w as [ss h t a]. unfold display_results, bind, get_self, or_raise.
  cbn. destruct (properties_input a) as [[l|]|]; cbn; try reflexivity.
  destruct (local_types a) as [[|ty tys]|]; cbn; try reflexivity.
  destruct (selected_department a); cbn; [|reflexivity].
  by destruct (selected_year a).
Qed.

(** *** What a run leaves in the store, the trace and the heap *)

Lemma py_eqb_PStr (previous : pyval) (s : string) :
  py_eqb previous (PStr s) = bool_decide (previous = PStr s).
Proof. by destruct previous. Qed.

Lemma selected_department_code (ui : UI) :
  exists code,
    widget_selectbox department_codes 5 (ui_department ui) = PStr code
    /\ code ∈ department_codes.
Proof. apply widget_selectbox_elem. simpl. lia. Qed.

Lemma widget_not_session_write (e : event) :
  is_widget e = true -> is_session_write e = false.
Proof. by destruct e. Qed.

Lemma widget_not_fetch_call (e : event) :
  is_widget e = true -> is_fetch_call e = false.
Proof. by destruct e. Qed.

Lemma fetch_calls_app (t1 t2 : list event) :
  fetch_calls (t1 ++ t2) = fetch_calls t1 ++ fetch_calls t2.
Proof. apply List.filter_app. Qed.

Lemma fetch_calls_none (t : list event) :
  Forall (fun e => is_fetch_call e = false) t -> fetch_calls t = [].
Proof.
  induction 1 as [|e t He _ IH]; simpl; [reflexivity|]. by rewrite He.
Qed.

Lemma postcode_deletions_are_deletions (ss : gmap string pyval) :
  Forall (fun e => exists key, e = Ev_session_del key) (postcode_deletions ss).
Proof.
  unfold postcode_deletions.
  repeat case_bool_decide; simpl; repeat constructor; by eexists.
Qed.

(** The store a run leaves: the update of lines 107-119 and, when a
    frame was fetched, the entry of the type selector. *)
Lemma initial_request_session (ui : UI) (w : World) :
  let d := widget_selectbox department_codes 5 (ui_department ui) in
  let ss1 :=
    <["previous_selected_department" := d]>
      (if department_changed (session_state w) d
       then delete "selected_postcode"
              (delete "selected_postcode_title" (session_state w))
       else session_state w) in
  let w' := (initial_request ui w).2 in
  session_state w' = ss1
  \/ exists y selected,
       selected_year (self w') = Some y
       /\ selected_local_type (self w') = Some selected
       /\ session_state w'
          = <["local_type_" +:+ py_str d +:+ "_" +:+ y := selected]> ss1.
Proof.
  pose proof (initial_request_spec ui w) as H. cbv zeta in *.
  destruct (Py.index "Vendus en 2023" year_labels); [|left; by rewrite H].
  destruct H as (label & y & _ & _ & _ & H).
  destruct (if Py.contains "2024" y then _ else _) as [df|];
    [|left; by rewrite H].
  destruct H as (r & df' & evs & a' & -> & _ & _ & _ & _ & Hy & _ & _ & _ & Hs).
  right. by exists y, (widget_selectbox (type_filter df) 0 (ui_local_type ui)).
Qed.

(** The key of the type selector is none of the three keys the script
    itself handles. *)
Lemma local_type_key_fresh (s key : string) :
  key = "previous_selected_department"
  \/ key = "selected_postcode" \/ key = "selected_postcode_title" ->
  "local_type_" +:+ s <> key.
Proof.
  change ("local_type_" +:+ s) with (String "l" ("ocal_type_" +:+ s)).
  intros [-> | [-> | ->]]; discriminate.
Qed.

Lemma initial_request_session_three (ui : UI) (w : World) (key : string) :
  key = "previous_selected_department"
  \/ key = "selected_postcode" \/ key = "selected_postcode_title" ->
  let d := widget_selectbox department_codes 5 (ui_department ui) in
  session_state (initial_request ui w).2 !! key
  = (<["previous_selected_department" := d]>
       (if department_changed (session_state w) d
        then delete "selected_postcode"
               (delete "selected_postcode_title" (session_state w))
        else session_state w)) !! key.
Proof.
  intros Hkey. cbv zeta.
  destruct (initial_request_session ui w) as [-> | (y & sel & _ & _ & ->)];
    [reflexivity|].
  apply lookup_insert_ne. by apply local_type_key_fresh.
Qed.

Lemma initial_request_trace (ui : UI) (w : World) :
  let d := widget_selectbox department_codes 5 (ui_department ui) in
  exists rest,
    trace (initial_request ui w).2
    = trace w
      ++ Ev_selectbox "Département" department_codes 5 None
         :: (if department_changed (session_state w) d
             then postcode_deletions (session_state w) else [])
         ++ Ev_session_set "previous_selected_department" d :: rest
    /\ Forall (fun e => is_session_write e = false) rest.
Proof.
  pose proof (initial_request_spec ui w) as H. cbv zeta in *.
  destruct (Py.index "Vendus en 2023" year_labels) as [k|].
  2: { exists []. rewrite H. by split. }
  destruct H as (label & y & _ & _ & _ & H).
  destruct (if Py.contains "2024" y then _ else _).
  - destruct H as (r & df' & evs & a' & -> & Hev & _). eexists. split.
    + cbn. rewrite <- !app_assoc. cbn. rewrite <- !app_assoc. reflexivity.
    + repeat constructor; try by destruct (Py.contains "2024" y).
      eapply Forall_impl; [exact Hev|]. apply widget_not_session_write.
  - rewrite H. eexists. split.
    + cbn. rewrite <- !app_assoc. cbn. rewrite <- !app_assoc. reflexivity.
    + repeat constructor. by destruct (Py.contains "2024" y).
Qed.

Lemma initial_request_heap (ui : UI) (w : World) :
  heap (initial_request ui w).2 = heap w
  \/ exists df df',
       fetched_frame df
       /\ heap (initial_request ui w).2 = heap w ++ [df; df']
       /\ ((initial_request ui w).1, df')
          = match normalization_engine wild (default true (ui_normalize ui)) df with
            | Ok out => (Ok tt, out)
            | Raise e => (Raise e, df)
            end.
Proof.
  pose proof (initial_request_spec ui w) as H. cbv zeta in *.
  destruct (Py.index "Vendus en 2023" year_labels) as [k|];
    [|left; by rewrite H].
  destruct H as (label & y & _ & _ & _ & H).
  destruct (if Py.contains "2024" y then _ else _) as [df|] eqn:Hf;
    [|left; by rewrite H].
  destruct H as (r & df' & evs & a' & -> & _ & Hr & _).
  right. exists df, df'. split; [|by split].
  eexists _, y. destruct (Py.contains "2024" y); [right|left]; exact Hf.
Qed.

(** *** Properties of a run *)

(** C2: in every run of [initial_request], on whatever store the previous
    evaluation left: the update step itself never raises, absent keys
    included; the selected department ends up recorded; when a recorded
    department differs from the selected one, the postcode and the
    postcode title are both gone; when it is the same or none was recorded,
    both are as they were; every other key is as it was, but for the key
    of the type selector, local_type_<department>_<year>, under which the
    widget of line 153 leaves the selected type; and in the trace the
    deletions and the recording come right after the department selector,
    before every other widget, and the script assigns or deletes nothing
    in the store afterwards. *)
Theorem department_change_clears_postcode (ui : UI) (w : World) :
  let d := widget_selectbox department_codes 5 (ui_department ui) in
  let ss := session_state w in
  let w' := (initial_request ui w).2 in
  let ss' := session_state w' in
  (update_previous_department d w).1 = Ok tt
  /\ ss' !! "previous_selected_department" = Some d
  /\ (forall previous,
        ss !! "previous_selected_department" = Some previous ->
        previous <> d ->
        ss' !! "selected_postcode" = None
        /\ ss' !! "selected_postcode_title" = None)
  /\ (ss !! "previous_selected_department" = Some d
       \/ ss !! "previous_selected_department" = None ->
       ss' !! "selected_postcode" = ss !! "selected_postcode"
       /\ ss' !! "selected_postcode_title" = ss !! "selected_postcode_title")
  /\ (forall key,
        key <> "previous_selected_department" ->
        key <> "selected_postcode" ->
        key <> "selected_postcode_title" ->
        ss' !! key = ss !! key
        \/ exists y selected,
             selected_year (self w') = Some y
             /\ key = "local_type_" +:+ py_str d +:+ "_" +:+ y
             /\ selected_local_type (self w') = Some selected
             /\ ss' !! key = Some selected)
  /\ exists deletions rest,
       trace w'
       = trace w
         ++ Ev_selectbox "Département" department_codes 5 None
            :: deletions
            ++ Ev_session_set "previous_selected_department" d :: rest
       /\ Forall (fun e => exists key, e = Ev_session_del key) deletions
       /\ Forall (fun e => is_session_write e = false) rest.
Proof.
  cbv zeta. split; [by rewrite update_previous_department_eq|].
  rewrite !initial_request_session_three by auto.
  destruct (selected_department_code ui) as (code & Hd & _).
  set (d := widget_selectbox department_codes 5 (ui_department ui)) in *.
  unfold department_changed.
  split; [by rewrite lookup_insert_eq|].
  split; [|split; [|split]].
  - intros previous Hp Hne. rewrite Hp, Hd, py_eqb_PStr.
    rewrite bool_decide_eq_false_2 by congruence. cbn.
    rewrite !lookup_insert_ne by done.
    rewrite lookup_delete_eq, lookup_delete_ne by done.
    by rewrite lookup_delete_eq.
  - intros [Hp|Hp]; rewrite Hp.
    + rewrite Hd, py_eqb_PStr, bool_decide_eq_true_2 by done. cbn.
      by rewrite !lookup_insert_ne by done.
    + by rewrite !lookup_insert_ne by done.
  - intros key H1 H2 H3.
    assert ((<["previous_selected_department" := d]>
               (if department_changed (session_state w) d
                then delete "selected_postcode"
                       (delete "selected_postcode_title" (session_state w))
                else session_state w)) !! key
            = session_state w !! key) as Hother.
    { rewrite lookup_insert_ne by done.
      destruct (department_changed (session_state w) d); [|done].
      by rewrite !lookup_delete_ne by done. }
    destruct (initial_request_session ui w) as [E|(y & sel & Hy & Hs & E)];
      cbv zeta in E; fold d in E; rewrite E.
    + by left.
    + destruct (decide (key = "local_type_" +:+ py_str d +:+ "_" +:+ y))
        as [->|Hk].
      * right. exists y, sel. fold d in Hy, Hs.
        repeat split; try done. by rewrite lookup_insert_eq.
      * left. by rewrite lookup_insert_ne.
  - destruct (initial_request_trace ui w) as (rest & Htr & Hrest).
    cbv zeta in Htr. fold d in Htr. unfold department_changed in Htr.
    eexists _, rest. split; [exact Htr|]. split; [|exact Hrest].
    destruct (session_state w !! "previous_selected_department") as [p|];
      [destruct (negb (py_eqb p d))|]; try constructor.
    apply postcode_deletions_are_deletions.
Qed.

Lemma fetch_calls_cons (e : event) (t : list event) :
  fetch_calls (e :: t)
  = (if is_fetch_call e then [e] else []) ++ fetch_calls t.
Proof. unfold fetch_calls. simpl. by destruct (is_fetch_call e). Qed.

#[local] Arguments fetch_calls : simpl never.

(** C1: for every department code of the fixed list and every year of the
    catalogue, written with four digits, that the user picks (the
    catalogue listing 2023, the year the selector opens on), the run calls
    exactly one fetcher, once: [fetch_data_BigQuery] with the credentials
    and the department when the year is 2024, [fetch_data_gouv] with the
    department and the year otherwise. *)
Theorem exactly_one_fetcher_is_called (ui : UI) (w : World) (code : string)
    (year : pyval) :
  code ∈ department_codes ->
  year ∈ years_range ->
  (exists y23, y23 ∈ years_range /\ py_str y23 = "2023") ->
  Py.isdigit (py_str year) = true ->
  String.length (py_str year) = 4 ->
  ui_department ui = Some code ->
  ui_year ui = Some ("Vendus en " +:+ py_str year) ->
  fetch_calls (trace (initial_request ui w).2)
  = fetch_calls (trace w)
    ++ [if decide (py_str year = "2024")
        then Ev_fetch_data_BigQuery bigquery_cred (PStr code)
        else Ev_fetch_data_gouv (PStr code) (py_str year)].
Proof.
  intros Hcode Hyear (y23 & H23 & E23) Hdigit Hlen Hd Hy.
  assert ("Vendus en 2023" ∈ year_labels) as Hin23.
  { unfold year_labels. apply list_elem_of_fmap. exists y23.
    split; [by rewrite E23|done]. }
  destruct (index_Some_elem _ _ Hin23) as [k Hk].
  assert (("Vendus en " +:+ py_str year) ∈ year_labels) as Hin.
  { unfold year_labels. apply list_elem_of_fmap. by exists year. }
  pose proof (initial_request_spec ui w) as H. cbv zeta in H.
  rewrite Hk, Hd, Hy in H.
  rewrite (widget_selectbox_pick _ _ _ Hcode) in H.
  destruct H as (label & y & Hw & _ & Hlast & H).
  rewrite (widget_selectbox_pick _ _ _ Hin) in Hw. injection Hw as <-.
  rewrite (year_of_label _ Hdigit) in Hlast. injection Hlast as <-.
  assert (Py.contains "2024" (py_str year)
          = bool_decide (py_str year = "2024")) as Hc.
  { case_bool_decide as E.
    - by apply contains_same_length.
    - apply not_true_is_false. intros Hf. apply E.
      by apply (contains_same_length "2024"). }
  assert (fetch_calls
            (if department_changed (session_state w) (PStr code)
             then postcode_deletions (session_state w) else []) = []) as Hdel.
  { apply fetch_calls_none. destruct (department_changed _ _); [|constructor].
    eapply Forall_impl; [apply postcode_deletions_are_deletions|].
    by intros e [key ->]. }
  rewrite Hc in H.
  assert (forall evs,
    Forall (fun e => is_widget e = true) evs ->
    fetch_calls
      ((trace w
        ++ Ev_selectbox "Département" department_codes 5 None
           :: (if department_changed (session_state w) (PStr code)
               then postcode_deletions (session_state w) else [])
           ++ [Ev_session_set "previous_selected_department" (PStr code)])
       ++ [Ev_selectbox "Année" year_labels k None;
           if bool_decide (py_str year = "2024")
           then Ev_fetch_data_BigQuery bigquery_cred (PStr code)
           else Ev_fetch_data_gouv (PStr code) (py_str year)] ++ evs)
    = fetch_calls (trace w)
      ++ [if decide (py_str year = "2024")
          then Ev_fetch_data_BigQuery bigquery_cred (PStr code)
          else Ev_fetch_data_gouv (PStr code) (py_str year)]) as Htrace.
  { intros evs Hev.
    rewrite !fetch_calls_app, !fetch_calls_cons, fetch_calls_app, Hdel.
    rewrite (fetch_calls_none evs)
      by (eapply Forall_impl; [exact Hev|]; apply widget_not_fetch_call).
    rewrite <- app_assoc. f_equal.
    case_bool_decide;
      [rewrite decide_True by done|rewrite decide_False by done];
      reflexivity. }
  destruct (if bool_decide (py_str year = "2024") then _ else _) as [df|].
  - destruct H as (r & df' & evs & a' & -> & Hev & _).
    cbn [snd trace]. rewrite <- app_assoc. apply Htrace.
    by repeat constructor.
  - rewrite H. cbn [snd trace].
    specialize (Htrace [] (List.Forall_nil _)). by rewrite app_nil_r in Htrace.
Qed.

(** *** A whole evaluation *)

Lemma widget_not_display (e : event) :
  is_widget e = true -> is_display e = false.
Proof. by destruct e. Qed.

Lemma filter_none {A} (f : A -> bool) (l : list A) :
  Forall (fun x => f x = false) l -> List.filter f l = [].
Proof. induction 1 as [|x l Hx _ IH]; simpl; [done|]. by rewrite Hx. Qed.

Lemma unique_go_nil (seen : gset string) (l : list string) :
  seen = ∅ -> unique_go seen l = [] -> l = [].
Proof.
  intros -> H. destruct l as [|x l]; [done|]. simpl in H.
  destruct (decide (x ∈ ∅)) as [Hin|_]; [set_solver|discriminate].
Qed.

Lemma sorted_insert_not_nil (x : string) (l : list string) :
  sorted_insert x l <> [].
Proof. destruct l as [|y l]; simpl; [done|]. by destruct (String.ltb y x). Qed.

Lemma type_filter_nil (df : DataFrame) : type_filter df = [] -> df = [].
Proof.
  unfold type_filter. intros H.
  destruct (unique (map type_local df)) as [|x l] eqn:E.
  - apply (unique_go_nil ∅) in E; [|done]. by destruct df.
  - simpl in H. by apply sorted_insert_not_nil in H.
Qed.

Ltac quiet_events :=
  repeat match goal with
  | |- Forall _ [] => apply List.Forall_nil
  | |- Forall _ (_ :: _) => apply List.Forall_cons
  | |- Forall _ (_ ++ _) => apply Forall_app_2
  | |- Forall _ init_events => by repeat constructor
  | |- Forall _ (trace ?w) => unfold w; cbn [trace]
  | |- Forall _ _ =>
      first [assumption
            |eapply Forall_impl; [eassumption|apply widget_not_display]]
  | |- _ (if ?b then _ else _) = false => destruct b; reflexivity
  | |- _ = false => reflexivity
  end.

Lemma evaluate_paths (ss : gmap string pyval) (ui : UI) :
  let r := (evaluate ss ui).1 in
  let w' := (evaluate ss ui).2 in
  exists quiet,
    Forall (fun e => is_display e = false) quiet
    /\ ((r = Raise ValueError
         /\ properties_input (self w') = None
         /\ trace w' = quiet)
        \/ (r = Ok tt
            /\ properties_input (self w') = Some None
            /\ local_types (self w') = None
            /\ selected_local_type (self w') = None
            /\ normalize_by_area (self w') = None
            /\ heap w' = []
            /\ trace w' = quiet
            /\ exists k,
                 List.filter is_widget quiet
                 = [Ev_selectbox "Département" department_codes 5 None;
                    Ev_selectbox "Année" year_labels k None])
        \/ (exists df code y,
              code ∈ department_codes
              /\ properties_input (self w') = Some (Some 1)
              /\ local_types (self w') = Some (type_filter df)
              /\ selected_department (self w') = Some (PStr code)
              /\ selected_year (self w') = Some y
              /\ match normalization_engine wild
                         (default true (ui_normalize ui)) df with
                 | Raise e => r = Raise e /\ trace w' = quiet
                 | Ok _ =>
                     r = Ok tt
                     /\ trace w'
                        = quiet
                          ++ [match type_filter df with
                              | [] => Ev_sidebar_error
                                        (no_information (PStr code) y)
                              | _ :: _ => Ev_create_plots
                              end]
                 end)).
Proof.
  cbv zeta. unfold evaluate. rewrite App_init_eq. cbn [session_state heap trace self].
  match goal with |- context [bind (initial_request ui) _ ?w0] =>
    pose proof (initial_request_spec ui w0) as H; set (w1 := w0) in * end.
  cbv zeta in H.
  destruct (selected_department_code ui) as (code & Hd & Hcode).
  rewrite Hd in H.
  assert (Forall (fun e => is_display e = false)
            (if department_changed (session_state w1) (PStr code)
             then postcode_deletions (session_state w1) else [])) as Hdel.
  { destruct (department_changed _ _); [|constructor].
    eapply Forall_impl; [apply postcode_deletions_are_deletions|].
    by intros e [key ->]. }
  assert (Forall (fun e => is_widget e = false)
            (if department_changed (session_state w1) (PStr code)
             then postcode_deletions (session_state w1) else [])) as Hdelw.
  { destruct (department_changed _ _); [|constructor].
    eapply Forall_impl; [apply postcode_deletions_are_deletions|].
    by intros e [key ->]. }
  destruct (Py.index "Vendus en 2023" year_labels) as [k|].
  2: { rewrite (bind_Raise _ _ _ _ _ H). eexists. split; [|left; by repeat split].
       cbn [snd trace]. quiet_events. }
  destruct H as (label & y & _ & _ & _ & H).
  destruct (if Py.contains "2024" y then _ else _) as [df|].
  - destruct H as (r & df' & evs & a' & H & Hev & Hr & Ha).
    destruct Ha as (_ & Hsd & Hsy & Hpi & Hlt & _).
    destruct (normalization_engine wild (default true (ui_normalize ui)) df)
      as [out|e] eqn:Eng; injection Hr as -> ->.
    + rewrite (bind_Ok _ _ _ _ _ H), display_results_eq.
      cbn [self]. rewrite Hpi, Hlt, Hsd, Hsy.
      destruct (type_filter df) as [|ty tys] eqn:Etf;
        (eexists; split; [|right; right; exists df, code, y]);
        [|split; [done|]; rewrite Eng, Etf; unfold emit;
          cbn [snd fst trace self]; by repeat split
         |
         |split; [done|]; rewrite Eng, Etf; unfold emit;
          cbn [snd fst trace self]; by repeat split];
        quiet_events.
    + rewrite (bind_Raise _ _ _ _ _ H).
      eexists. split; [|right; right; exists df, code, y].
      2: { split; [done|]. rewrite Eng. cbn [snd fst trace self].
           by repeat split. }
      cbn [snd trace]. quiet_events.
  - rewrite (bind_Ok _ _ _ _ _ H), display_results_eq.
    cbn [self properties_input with_properties_input].
    eexists. split; [|right; left].
    2: { cbn [fst snd trace self heap].
         do 7 (split; [reflexivity|]).
         exists k. rewrite !List.filter_app. unfold w1 in *.
         cbn [session_state] in Hdelw. cbn.
         rewrite List.filter_app, (filter_none _ _ Hdelw). cbn.
         by destruct (Py.contains "2024" y). }
    quiet_events.
Qed.

(** C5, as the code has it: in every evaluation in which the resolver
    answers that there is no dataset ([self.properties_input] is [None]),
    the run ends normally with neither the Type Filter nor the
    Normalization Engine run: no type list, no selected type and no
    normalisation flag are set, no frame is copied, the only widgets shown
    are the department and the year selectors; and [__init__] itself
    shows nothing, neither the plots nor the message naming the
    department and the year. *)
Theorem unavailable_stops_the_pipeline (ss : gmap string pyval) (ui : UI) :
  let w' := (evaluate ss ui).2 in
  properties_input (self w') = Some None ->
  (evaluate ss ui).1 = Ok tt
  /\ local_types (self w') = None
  /\ selected_local_type (self w') = None
  /\ normalize_by_area (self w') = None
  /\ heap w' = []
  /\ (exists k,
        List.filter is_widget (trace w')
        = [Ev_selectbox "Département" department_codes 5 None;
           Ev_selectbox "Année" year_labels k None])
  /\ List.filter is_display (trace w') = [].
Proof.
  cbv zeta. intros Hnone.
  destruct (evaluate_paths ss ui) as (quiet & Hq & [H|[H|H]]); cbv zeta in H.
  - destruct H as (_ & H & _). congruence.
  - destruct H as (-> & _ & -> & -> & -> & -> & -> & Hw).
    repeat split; try done. by apply filter_none.
  - destruct H as (df & code & y & _ & H & _). congruence.
Qed.

(** C8, as the code has it: in every evaluation in which a frame was
    fetched ([self.properties_input] holds one) and the computed list of
    property types is empty, the run ends normally and the last thing it
    does is show, in the sidebar, the message that reads: Pas
    d'information disponible pour le département, the selected department,
    en, the selected year, and the invitation to select another
    configuration; nothing was plotted and no other message shown before.
    This is not what happens when no frame is fetched: an evaluation that
    leaves [None] in [self.properties_input] shows neither the plots nor
    any message. *)
Theorem empty_type_set_shows_the_message (ss : gmap string pyval) (ui : UI)
    (l : nat) :
  let w' := (evaluate ss ui).2 in
  properties_input (self w') = Some (Some l) ->
  local_types (self w') = Some [] ->
  (evaluate ss ui).1 = Ok tt
  /\ (exists code y quiet,
        code ∈ department_codes
        /\ selected_department (self w') = Some (PStr code)
        /\ selected_year (self w') = Some y
        /\ trace w'
           = quiet
             ++ [Ev_sidebar_error
                   ("Pas d'information disponible pour le département "
                    +:+ code +:+ " en " +:+ y
                    +:+ ". Sélectionnez une autre configuration.")]
        /\ List.filter is_display quiet = [])
  /\ (forall ss0 ui0,
        properties_input (self (evaluate ss0 ui0).2) = Some None ->
        List.filter is_display (trace (evaluate ss0 ui0).2) = []).
Proof.
  cbv zeta. intros Hframe Hempty.
  split; [|split].
  - destruct (evaluate_paths ss ui) as (quiet & Hq & [H|[H|H]]);
      cbv zeta in H.
    + destruct H as (_ & H & _). congruence.
    + destruct H as (_ & H & _). congruence.
    + destruct H as (df & code & y & Hcode & _ & Hlt & Hsd & Hsy & H).
      rewrite Hlt in Hempty. injection Hempty as Hempty.
      rewrite Hempty in H. apply type_filter_nil in Hempty. subst df.
      assert (normalization_engine wild (default true (ui_normalize ui)) []
              = Ok []) as Eng by (by destruct (default true (ui_normalize ui))).
      rewrite Eng in H. by destruct H.
  - destruct (evaluate_paths ss ui) as (quiet & Hq & [H|[H|H]]);
      cbv zeta in H.
    + destruct H as (_ & H & _). congruence.
    + destruct H as (_ & H & _). congruence.
    + destruct H as (df & code & y & Hcode & _ & Hlt & Hsd & Hsy & H).
      rewrite Hlt in Hempty. injection Hempty as Hempty.
      rewrite Hempty in H. apply type_filter_nil in Hempty. subst df.
      assert (normalization_engine wild (default true (ui_normalize ui)) []
              = Ok []) as Eng by (by destruct (default true (ui_normalize ui))).
      rewrite Eng in H. destruct H as [Hr Ht].
      exists code, y, quiet.
      repeat split; try done. by apply filter_none.
  - intros ss0 ui0 Hnone.
    destruct (evaluate_paths ss0 ui0) as (quiet & Hq & [H|[H|H]]);
      cbv zeta in H.
    + destruct H as (_ & H & _). congruence.
    + destruct H as (_ & _ & _ & _ & _ & _ & -> & _). by apply filter_none.
    + destruct H as (df & code & y & _ & H & _). congruence.
Qed.


(** C9: with the box unticked the engine returns the frame it is given,
    and a run of [initial_request] that fetched a frame ends normally with
    two objects added to the heap, the fetched frame and its copy, both
    holding the frame exactly as fetched. *)
Theorem unticked_box_leaves_the_frame_unchanged (ui : UI) (w : World) :
  ui_normalize ui = Some false ->
  (forall df, normalization_engine wild false df = Ok df)
  /\ (heap (initial_request ui w).2 = heap w
      \/ exists df,
           fetched_frame df
           /\ (initial_request ui w).1 = Ok tt
           /\ heap (initial_request ui w).2 = heap w ++ [df; df]).
Proof.
  intros Hoff. split; [done|].
  destruct (initial_request_heap ui w) as [->|(df & df' & Hf & -> & Hr)];
    [by left|].
  right. rewrite Hoff in Hr. cbn in Hr. injection Hr as -> ->. by exists df.
Qed.

End PipelineFacts.

(** ** The properties on the sample data *)

(** Department 06 picked with 2022, then with 2024: the archive is asked
    in the first run, the warehouse in the second, and nothing else. *)
Lemma exactly_one_fetcher_is_called_witness :
  fetch_calls
    (trace (initial_request (ext := Sample.ext) (Sample.pick "06" "2022")
              (Sample.start ∅)).2)
  = [Ev_fetch_data_gouv (PStr "06") "2022"]
  /\ fetch_calls
       (trace (initial_request (ext := Sample.ext) (Sample.pick "06" "2024")
                 (Sample.start ∅)).2)
     = [Ev_fetch_data_BigQuery (tt : @Cred Sample.ext) (PStr "06")].
Proof.
  split.
  - apply (@exactly_one_fetcher_is_called Sample.ext (Sample.pick "06" "2022")
             (Sample.start ∅) "06" (PInt 2022)).
    + apply (bool_decide_unpack _). vm_compute. exact I.
    + apply (bool_decide_unpack _). vm_compute. exact I.
    + exists (PInt 2023). split; [|reflexivity].
      apply (bool_decide_unpack _). vm_compute. exact I.
    + reflexivity.
    + reflexivity.
    + reflexivity.
    + reflexivity.
  - apply (@exactly_one_fetcher_is_called Sample.ext (Sample.pick "06" "2024")
             (Sample.start ∅) "06" (PInt 2024)).
    + apply (bool_decide_unpack _). vm_compute. exact I.
    + apply (bool_decide_unpack _). vm_compute. exact I.
    + exists (PInt 2023). split; [|reflexivity].
      apply (bool_decide_unpack _). vm_compute. exact I.
    + reflexivity.
    + reflexivity.
    + reflexivity.
    + reflexivity.
Defined.

(** Department 06 selected on the store left by department 07: the
    postcode is forgotten and 06 is recorded. *)
Lemma department_change_clears_postcode_witness :
  Sample.store_07 !! "previous_selected_department" = Some (PStr "07")
  /\ Sample.store_07 !! "selected_postcode" = Some (PStr "07000")
  /\ session_state
       (initial_request (ext := Sample.ext) Sample.untouched
          (Sample.start Sample.store_07)).2 !! "selected_postcode" = None.
Proof.
  split; [reflexivity|]. split; [reflexivity|].
  destruct (@department_change_clears_postcode Sample.ext Sample.untouched
              (Sample.start Sample.store_07)) as (_ & _ & H & _).
  apply (H (PStr "07")); [reflexivity|discriminate].
Defined.

(** The negative area of [Sample.negative_area] goes through: the record
    is kept and priced at -3000. *)
Lemma negative_area_is_normalised :
  surface_reelle_bati Sample.negative_area = Int64 (-50)
  /\ normalization_engine Sample.indefinite true [Sample.negative_area]
     = Ok [set_valeur_fonciere Sample.negative_area (Int64 (-3000))].
Proof. split; reflexivity. Qed.

Lemma zero_area_is_refused_witness :
  Sample.no_area ∈ [Sample.house; Sample.no_area]
  /\ normalization_engine Sample.indefinite true [Sample.house; Sample.no_area]
     = Raise IntCastingNaNError.
Proof.
  assert (Sample.no_area ∈ [Sample.house; Sample.no_area]) as Hin
    by (apply list_elem_of_further, list_elem_of_here).
  split; [exact Hin|].
  apply (zero_area_is_refused Sample.indefinite
           [Sample.house; Sample.no_area] Sample.no_area Hin eq_refl).
Defined.

(** [Sample.house] has 50 square metres, and yet is not repriced when a
    record without area sits in the same frame: nothing is returned. *)
Lemma positive_area_is_not_enough :
  surface_reelle_bati Sample.house = Float64 (F64.of_int 50)
  /\ normalization_engine Sample.indefinite true [Sample.house; Sample.no_area]
     = Raise IntCastingNaNError.
Proof. split; reflexivity. Qed.

Lemma normalization_replaces_price_witness :
  normalization_engine Sample.indefinite true Sample.frame
  = Ok [set_valeur_fonciere Sample.house (Int64 3000);
        set_valeur_fonciere Sample.flat (Int64 2500);
        set_valeur_fonciere Sample.house (Int64 3000)].
Proof.
  destruct (normalization_replaces_price Sample.indefinite Sample.frame)
    as ((out & Hout & _) & _).
  - apply all_finite_Forall. reflexivity.
  - rewrite Hout. f_equal.
    assert (normalization_engine Sample.indefinite true Sample.frame
            = Ok [set_valeur_fonciere Sample.house (Int64 3000);
                  set_valeur_fonciere Sample.flat (Int64 2500);
                  set_valeur_fonciere Sample.house (Int64 3000)]) as E
      by reflexivity.
    rewrite Hout in E. by injection E.
Defined.

(** Department 07 is not in the archive: the run stops after the fetch
    and the main page stays empty, without the message. *)
Lemma unavailable_shows_no_message :
  properties_input
    (self (evaluate (ext := Sample.ext) ∅ (Sample.pick "07" "2023")).2)
  = Some None
  /\ List.filter is_display
       (trace (evaluate (ext := Sample.ext) ∅ (Sample.pick "07" "2023")).2)
     = [].
Proof. split; vm_compute; reflexivity. Qed.

Lemma unavailable_stops_the_pipeline_witness :
  (evaluate (ext := Sample.ext) ∅ (Sample.pick "07" "2023")).1 = Ok tt
  /\ heap (evaluate (ext := Sample.ext) ∅ (Sample.pick "07" "2023")).2 = [].
Proof.
  destruct (@unavailable_stops_the_pipeline Sample.ext ∅
              (Sample.pick "07" "2023")) as (H1 & _ & _ & _ & H2 & _).
  - vm_compute. reflexivity.
  - split; [exact H1|exact H2].
Defined.


(** The archive has no file for department 07 and an empty file for
    department 06 in 2021: the two are not treated alike, the first run
    showing nothing and the second the message. *)
Lemma empty_frame_is_not_treated_as_unavailable :
  properties_input
    (self (evaluate (ext := Sample.ext) ∅ (Sample.pick "07" "2023")).2)
  = Some None
  /\ List.filter is_display
       (trace (evaluate (ext := Sample.ext) ∅ (Sample.pick "07" "2023")).2)
     = []
  /\ local_types
       (self (evaluate (ext := Sample.ext) ∅ (Sample.pick "06" "2021")).2)
     = Some []
  /\ List.filter is_display
       (trace (evaluate (ext := Sample.ext) ∅ (Sample.pick "06" "2021")).2)
     = [Ev_sidebar_error "Pas d'information disponible pour le département 06 en 2021. Sélectionnez une autre configuration."].
Proof. repeat split; vm_compute; reflexivity. Qed.

(** The archive holds an empty file for 2021: the message is shown. *)
Lemma empty_type_set_shows_the_message_witness :
  (evaluate (ext := Sample.ext) ∅ (Sample.pick "06" "2021")).1 = Ok tt.
Proof.
  apply (@empty_type_set_shows_the_message Sample.ext ∅
           (Sample.pick "06" "2021") 1).
  - vm_compute. reflexivity.
  - vm_compute. reflexivity.
Defined.

Lemma unticked_box_leaves_the_frame_unchanged_witness :
  ui_normalize Sample.unticked = Some false
  /\ (heap (initial_request (ext := Sample.ext) Sample.unticked
              (Sample.start ∅)).2 = []
      \/ exists df,
           fetched_frame (ext := Sample.ext) df
           /\ (initial_request (ext := Sample.ext) Sample.unticked
                 (Sample.start ∅)).1 = Ok tt
           /\ heap (initial_request (ext := Sample.ext) Sample.unticked
                      (Sample.start ∅)).2 = [df; df]).
Proof.
  split; [reflexivity|].
  apply (@unticked_box_leaves_the_frame_unchanged Sample.ext Sample.unticked
           (Sample.start ∅) eq_refl).
Defined.

Lemma type_filter_commutes_with_normalization_witness :
  type_filter (map (normalized_row Sample.indefinite) Sample.frame)
  = type_filter Sample.frame.
Proof.
  apply (type_filter_commutes_with_normalization Sample.indefinite true
           Sample.frame (map (normalized_row Sample.indefinite) Sample.frame)).
  reflexivity.
Defined.

(** The scenario of the specification: department 06, year 2022, the box
    ticked, a frame with houses and a flat. The type options come out as
    Appartement then Maison, the copy holds the prices per square metre,
    and the plots are drawn. *)
Example department_06_in_2022 :
  let w' := (evaluate (ext := Sample.ext) ∅ (Sample.pick "06" "2022")).2 in
  local_types (self w') = Some ["Appartement"; "Maison"]
  /\ heap w' !! 0 = Some Sample.frame
  /\ map valeur_fonciere <$> heap w' !! 1
     = Some [Int64 3000; Int64 2500; Int64 3000]
  /\ last (trace w') = Some Ev_create_plots.
Proof. vm_compute. repeat split. Qed.

(** ** Further properties of the module *)

(** *** Strings: [in], [split] and the labels of the year selector *)

Lemma str_app_cons (x : ascii) (a b : string) :
  String x a +:+ b = String x (a +:+ b).
Proof. reflexivity. Qed.

Lemma str_app_assoc (a b c : string) : (a +:+ b) +:+ c = a +:+ b +:+ c.
Proof.
  induction a as [|x a IH]; [reflexivity|]. rewrite !str_app_cons. by f_equal.
Qed.

Lemma str_app_nil_r (a : string) : a +:+ "" = a.
Proof.
  induction a as [|x a IH]; [reflexivity|]. rewrite str_app_cons. by f_equal.
Qed.

Lemma rev_app_app (cur s : string) :
  String.rev_app cur s = String.rev cur +:+ s.
Proof.
  unfold String.rev. revert s.
  induction cur as [|c cur IH]; intros s; simpl; [reflexivity|].
  rewrite (IH (String c s)), (IH (String c "")), str_app_assoc. reflexivity.
Qed.

Lemma prefix_spec (a b : string) :
  String.prefix a b = true <-> exists post, b = a +:+ post.
Proof.
  revert b. induction a as [|c a IH]; intros b.
  - split; [intros _; by exists b|]. intros _. by destruct b.
  - destruct b as [|c' b]; simpl.
    + split; [discriminate|]. by intros [post H].
    + destruct (ascii_dec c c') as [->|Hne].
      * rewrite IH. split; intros [post H]; exists post;
          rewrite str_app_cons in *; congruence.
      * split; [discriminate|]. intros [post H].
        rewrite str_app_cons in H. congruence.
Qed.

(** [sub in s] holds exactly when [s] is [sub] between two texts. *)
Lemma contains_spec (sub s : string) :
  Py.contains sub s = true <-> exists pre post, s = pre +:+ sub +:+ post.
Proof.
  induction s as [|c s IH].
  - change (Py.contains sub "")
      with (if String.prefix sub "" then true else false).
    destruct (String.prefix sub "") eqn:E.
    + split; [intros _|done]. apply prefix_spec in E as [post E].
      by exists "", post.
    + split; [discriminate|]. intros (pre & post & H).
      destruct pre; [|discriminate].
      assert (String.prefix sub "" = true)
        by (apply prefix_spec; by exists post).
      congruence.
  - rewrite contains_cons. destruct (String.prefix sub (String c s)) eqn:E.
    + split; [intros _|done]. apply prefix_spec in E as [post E].
      by exists "", post.
    + rewrite IH. split.
      * intros (pre & post & ->). by exists (String c pre), post.
      * intros (pre & post & H). destruct pre as [|c' pre].
        -- assert (String.prefix sub (String c s) = true)
             by (apply prefix_spec; by exists post).
           congruence.
        -- rewrite str_app_cons in H. injection H as -> ->.
           by exists pre, post.
Qed.

Lemma contains_char_cons (x c : ascii) (s : string) :
  Py.contains (String x "") (String c s) = false
  <-> x <> c /\ Py.contains (String x "") s = false.
Proof.
  rewrite contains_cons. simpl.
  destruct (ascii_dec x c) as [->|Hne].
  - destruct s; split; try discriminate; by intros [? _].
  - split; [by intros ->|by intros [_ ->]].
Qed.

Lemma no_space_rev_app (a b : string) :
  Py.contains " " a = false -> Py.contains " " b = false ->
  Py.contains " " (String.rev_app a b) = false.
Proof.
  revert b. induction a as [|c a IH]; intros b Ha Hb; simpl; [done|].
  apply contains_char_cons in Ha as [Hc Ha].
  apply IH; [done|]. by apply contains_char_cons.
Qed.

Lemma split_go_no_space (cur s : string) :
  Py.contains " " s = false -> Py.split_go cur s = [String.rev_app cur s].
Proof.
  revert cur. induction s as [|c s IH]; intros cur H; simpl; [reflexivity|].
  apply contains_char_cons in H as [Hc Hs].
  destruct (Ascii.eqb c " ") eqn:E.
  - apply Ascii.eqb_eq in E. congruence.
  - by rewrite IH.
Qed.

(** The last piece of a split holds no space and ends the text. *)
Lemma split_go_token (cur s y : string) :
  last (Py.split_go cur s) = Some y ->
  Py.contains " " cur = false ->
  Py.contains " " y = false /\ exists pre, String.rev cur +:+ s = pre +:+ y.
Proof.
  revert cur. induction s as [|c s IH]; intros cur Hy Hcur; simpl in Hy.
  - injection Hy as <-. split; [by apply no_space_rev_app|].
    exists "". by rewrite str_app_nil_r.
  - destruct (Ascii.eqb c " ") eqn:E.
    + apply Ascii.eqb_eq in E. subst c.
      rewrite last_cons in Hy.
      destruct (last (Py.split_go "" s)) as [y'|] eqn:El.
      * injection Hy as ->. destruct (IH "" El eq_refl) as [Hn [pre Hp]].
        split; [done|]. exists (String.rev cur +:+ " " +:+ pre).
        rewrite !str_app_assoc. f_equal. cbn in Hp. by rewrite <- Hp.
      * destruct (split_go_last "" s) as [y' Hy']. congruence.
    + destruct (IH (String c cur) Hy) as [Hn [pre Hp]].
      { apply contains_char_cons. split; [|done].
        intros <-. by rewrite Ascii.eqb_refl in E. }
      split; [done|]. exists pre. rewrite <- Hp.
      rewrite <- !rev_app_app. reflexivity.
Qed.

Lemma index_None (x : string) (l : list string) :
  Py.index x l = None <-> x ∉ l.
Proof.
  induction l as [|y l IH]; simpl.
  - split; [intros _; apply not_elem_of_nil|done].
  - rewrite not_elem_of_cons. destruct (String.eqb_spec y x) as [->|Hne].
    + split; [discriminate|]. by intros [? _].
    + destruct (Py.index x l); simpl.
      * split; [discriminate|]. intros [_ H]. by apply IH in H.
      * split; [|done]. intros _. split; [congruence|by apply IH].
Qed.

Lemma index_first (x : string) (l : list string) (k : nat) :
  Py.index x l = Some k -> l !! k = Some x.
Proof.
  revert k. induction l as [|y l IH]; intros k; simpl; [discriminate|].
  destruct (String.eqb_spec y x) as [->|Hne].
  - by intros [= <-].
  - destruct (Py.index x l) as [j|]; simpl; [|discriminate].
    intros [= <-]. by apply IH.
Qed.

Lemma strictly_sorted_ext (l1 l2 : list string) :
  StronglySorted str_lt l1 -> StronglySorted str_lt l2 ->
  (forall x, x ∈ l1 <-> x ∈ l2) -> l1 = l2.
Proof.
  revert l2. induction l1 as [|a l1 IH]; intros [|b l2] H1 H2 Hext.
  - reflexivity.
  - exfalso. eapply not_elem_of_nil. apply Hext. by left.
  - exfalso. eapply not_elem_of_nil. apply Hext. by left.
  - apply StronglySorted_inv in H1 as [H1 Ha].
    apply StronglySorted_inv in H2 as [H2 Hb].
    rewrite Forall_forall in Ha, Hb.
    assert (a = b) as ->.
    { destruct (decide (a = b)) as [|Hne]; [done|]. exfalso.
      assert (a ∈ l2) as Hal.
      { pose proof (proj1 (Hext a) (list_elem_of_here _ _)) as H.
        apply elem_of_cons in H as [?|?]; [done|done]. }
      assert (b ∈ l1) as Hbl.
      { pose proof (proj2 (Hext b) (list_elem_of_here _ _)) as H.
        apply elem_of_cons in H as [?|?]; [congruence|done]. }
      eapply str_lt_irrefl, str_lt_trans; [apply (Ha b Hbl)|apply (Hb a Hal)]. }
    f_equal. apply IH; [done|done|]. intros x. split; intros Hx.
    + pose proof (proj1 (Hext x) (list_elem_of_further _ _ _ Hx)) as H.
      apply elem_of_cons in H as [->|?]; [|done].
      exfalso. by eapply str_lt_irrefl, Ha.
    + pose proof (proj2 (Hext x) (list_elem_of_further _ _ _ Hx)) as H.
      apply elem_of_cons in H as [->|?]; [|done].
      exfalso. by eapply str_lt_irrefl, Hb.
Qed.

Lemma unique_go_length (seen : gset string) (l : list string) :
  length (unique_go seen l) <= length l.
Proof.
  revert seen. induction l as [|x l IH]; intros seen; simpl; [lia|].
  destruct (decide (x ∈ seen)).
  - specialize (IH seen). lia.
  - specialize (IH ({[x]} ∪ seen)). simpl. lia.
Qed.

(** X11: the list of types depends on the set of [type_local] values of
    the frame only, not on the order or the number of the rows that carry
    them; it is never longer than the frame, and it is empty exactly when
    the frame has no row. *)
Theorem type_filter_is_canonical (df df' : DataFrame) :
  (forall t, t ∈ map type_local df <-> t ∈ map type_local df') ->
  type_filter df = type_filter df'
  /\ length (type_filter df) <= length df
  /\ (type_filter df = [] <-> df = []).
Proof.
  intros Hext. split; [|split].
  - apply strictly_sorted_ext.
    + apply sorted_StronglySorted, unique_NoDup.
    + apply sorted_StronglySorted, unique_NoDup.
    + intros x. unfold type_filter.
      by rewrite !sorted_Permutation, !elem_of_unique.
  - unfold type_filter. rewrite sorted_Permutation.
    etransitivity; [apply unique_go_length|]. by rewrite length_map.
  - split; [apply type_filter_nil|by intros ->].
Qed.

Section FurtherFacts.

Context {ext : Externals}.

Lemma has_2023 :
  "Vendus en 2023" ∈ year_labels
  <-> exists entry, entry ∈ years_range /\ py_str entry = "2023".
Proof.
  unfold year_labels. rewrite list_elem_of_fmap. split.
  - intros (entry & H & Hin). exists entry. split; [done|].
    change "Vendus en 2023" with ("Vendus en " +:+ "2023") in H.
    rewrite !(str_app_cons) in H. by repeat injection H as H.
  - intros (entry & Hin & H). exists entry. split; [|done]. by rewrite H.
Qed.

(** X1: the department selector never raises: its options are the
    hundred codes, all different and without 20, and the department it
    leaves in [self.selected_department] is always one of them: the
    user's pick when it is an option and 06, the option at the default
    index, otherwise. It touches neither the store nor the heap. *)
Theorem selected_department_is_a_code (ui : UI) (w : World) :
  let w' := (select_department ui w).2 in
  departments = Some department_codes
  /\ NoDup department_codes
  /\ ("20" ∉ department_codes)
  /\ Py.index "06" department_codes = Some 5
  /\ session_state w' = session_state w
  /\ heap w' = heap w
  /\ exists code,
       (select_department ui w).1 = Ok (PStr code)
       /\ selected_department (self w') = Some (PStr code)
       /\ code ∈ department_codes
       /\ (forall p, ui_department ui = Some p -> p ∈ department_codes ->
            code = p)
       /\ (ui_department ui = None
           \/ (exists p, ui_department ui = Some p /\ (p ∉ department_codes)) ->
           code = "06").
Proof.
  cbv zeta. rewrite select_department_eq. cbn [fst snd session_state heap self].
  split; [reflexivity|].
  split; [apply (bool_decide_unpack _); vm_compute; exact I|].
  split; [apply (bool_decide_unpack _); vm_compute; exact I|].
  split; [reflexivity|]. split; [reflexivity|]. split; [reflexivity|].
  destruct (selected_department_code ui) as (code & Hc & Hin).
  exists code. rewrite Hc. repeat split; try done.
  - intros p Hp Hpin. rewrite Hp, (widget_selectbox_pick _ _ _ Hpin) in Hc.
    congruence.
  - intros [Hn|(p & Hp & Hnin)].
    + rewrite Hn in Hc. cbn in Hc. congruence.
    + rewrite Hp in Hc. unfold widget_selectbox in Hc.
      rewrite bool_decide_eq_false_2 in Hc by done. cbn in Hc. congruence.
Qed.

(** X2: when the user picks the label of a catalogue entry, the year
    selector returns the last word of that label: a text without space
    that ends the label, which is the entry itself exactly when the entry
    is written without a space. *)
Theorem selected_year_is_last_word (ui : UI) (w : World) (entry : pyval) :
  entry ∈ years_range ->
  "Vendus en 2023" ∈ year_labels ->
  ui_year ui = Some ("Vendus en " +:+ py_str entry) ->
  exists y,
    (select_year ui w).1 = Ok y
    /\ selected_year (self (select_year ui w).2) = Some y
    /\ Py.contains " " y = false
    /\ (exists pre, "Vendus en " +:+ py_str entry = pre +:+ y)
    /\ (y = py_str entry <-> Py.contains " " (py_str entry) = false).
Proof.
  intros Hentry H23 Hpick.
  destruct (index_Some_elem _ _ H23) as [k Hk].
  destruct (select_year_eq ui w k Hk) as (label & y & Hw & _ & Hy & ->).
  assert (("Vendus en " +:+ py_str entry) ∈ year_labels) as Hin.
  { unfold year_labels. apply list_elem_of_fmap. by exists entry. }
  rewrite Hpick, (widget_selectbox_pick _ _ _ Hin) in Hw. injection Hw as <-.
  exists y. cbn [fst snd self selected_year with_selected_year].
  split; [done|]. split; [done|].
  destruct (split_go_token "" _ y Hy eq_refl) as [Hn [pre Hp]].
  split; [done|]. split; [by exists pre|].
  split; [by intros <-|]. intros Hs.
  assert (Py.split_space ("Vendus en " +:+ py_str entry)
          = ["Vendus"; "en"; py_str entry]) as E.
  { unfold Py.split_space.
    change (Py.split_go "" ("Vendus en " +:+ py_str entry))
      with ("Vendus" :: "en" :: Py.split_go "" (py_str entry)).
    by rewrite split_go_no_space. }
  unfold Py.last_item in Hy. rewrite E in Hy. cbn in Hy. congruence.
Qed.

(** X3: [initial_request] raises [ValueError] exactly when no catalogue
    entry is written 2023, the year the selector opens on. It then stops
    at line 124: the department is already recorded in the store, no
    fetcher has been called, no frame exists, and the whole evaluation
    ends on that error without showing the plots or the message. *)
Theorem year_selector_needs_2023 (ui : UI) (w : World) :
  let w' := (initial_request ui w).2 in
  let no_2023 := forall entry, entry ∈ years_range -> py_str entry <> "2023" in
  ((initial_request ui w).1 = Raise ValueError <-> no_2023)
  /\ (no_2023 ->
      fetch_calls (trace w') = fetch_calls (trace w)
      /\ heap w' = heap w
      /\ properties_input (self w') = properties_input (self w)
      /\ session_state w' !! "previous_selected_department"
         = Some (widget_selectbox department_codes 5 (ui_department ui))
      /\ forall ss,
           (evaluate ss ui).1 = Raise ValueError
           /\ List.filter is_display (trace (evaluate ss ui).2) = []).
Proof.
  cbv zeta.
  assert ((forall entry, entry ∈ years_range -> py_str entry <> "2023")
          <-> Py.index "Vendus en 2023" year_labels = None) as Hno.
  { rewrite index_None, has_2023. split.
    - intros H (entry & Hin & E). by apply (H entry).
    - intros H entry Hin E. apply H. by exists entry. }
  rewrite Hno. split.
  - pose proof (initial_request_spec ui w) as H. cbv zeta in H.
    destruct (Py.index "Vendus en 2023" year_labels) as [k|].
    + split; [|discriminate]. intros Hr. exfalso.
      destruct H as (label & y & _ & _ & _ & H).
      destruct (if Py.contains "2024" y then _ else _) as [df|].
      * destruct H as (r & df' & evs & a' & H & _ & Hm & _).
        rewrite H in Hr. cbn in Hr. subst r.
        destruct (normalization_engine_cases wild
                    (default true (ui_normalize ui)) df) as [E|E];
          rewrite E in Hm; discriminate.
      * rewrite H in Hr. discriminate.
    + by rewrite H.
  - intros Hnone.
    assert (forall w0, exists t,
              initial_request ui w0
              = (Raise ValueError,
                 {| session_state :=
                      <["previous_selected_department" :=
                          widget_selectbox department_codes 5 (ui_department ui)]>
                        (if department_changed (session_state w0)
                              (widget_selectbox department_codes 5 (ui_department ui))
                         then delete "selected_postcode"
                                (delete "selected_postcode_title" (session_state w0))
                         else session_state w0);
                    heap := heap w0; trace := trace w0 ++ t;
                    self := with_selected_department
                              (widget_selectbox department_codes 5 (ui_department ui))
                              (self w0) |})
              /\ Forall (fun e => is_fetch_call e = false) t
              /\ Forall (fun e => is_display e = false) t) as Hrun.
    { intros w0. pose proof (initial_request_spec ui w0) as H. cbv zeta in H.
      rewrite Hnone in H. eexists. split; [exact H|].
      split; (constructor; [done|]; apply Forall_app_2; [|by repeat constructor];
        (destruct (department_changed _ _); [|constructor]);
        (eapply Forall_impl; [apply postcode_deletions_are_deletions|]);
        by intros e [key ->]). }
    destruct (Hrun w) as (t & -> & Ht & _). cbn [fst snd trace heap self session_state].
    split; [by rewrite fetch_calls_app, (fetch_calls_none t), app_nil_r|].
    split; [done|]. split; [done|]. split; [by rewrite lookup_insert_eq|].
    intros ss. unfold evaluate. rewrite App_init_eq.
    match goal with |- context [bind _ _ ?w0] =>
      destruct (Hrun w0) as (t0 & E0 & _ & Hd) end.
    rewrite (bind_Raise _ _ _ _ _ E0). split; [done|].
    cbn [snd trace]. rewrite !List.filter_app. cbn.
    by apply filter_none.
Qed.

(** X4: the resolver looks for the text 2024 anywhere in the year: it
    asks the warehouse exactly when the year contains it, whatever stands
    before or after, and the archive otherwise, whatever the department;
    the frame it gets becomes one new object of the heap, referred to by
    [self.properties_input], and no frame leaves the heap as it was. *)
Theorem resolver_goes_by_substring (d : pyval) (y : string) (w : World) :
  let w' := (load_data d y w).2 in
  let live := exists pre post, y = pre +:+ "2024" +:+ post in
  (live ->
   fetch_calls (trace w')
   = fetch_calls (trace w) ++ [Ev_fetch_data_BigQuery bigquery_cred d]
   /\ heap w' = heap w ++ option_list (fetch_data_BigQuery bigquery_cred d))
  /\ (~ live ->
      fetch_calls (trace w')
      = fetch_calls (trace w) ++ [Ev_fetch_data_gouv d y]
      /\ heap w' = heap w ++ option_list (fetch_data_gouv d y))
  /\ (exists reference,
        (load_data d y w).1 = Ok reference
        /\ properties_input (self w') = Some reference
        /\ match reference with
           | Some l => l = length (heap w)
                       /\ exists df, heap w' = heap w ++ [df]
           | None => heap w' = heap w
           end).
Proof.
  cbv zeta. rewrite load_data_eq. cbn [fst snd trace heap self].
  rewrite fetch_calls_app.
  split; [|split].
  - intros Hl. apply contains_spec in Hl. rewrite Hl. by split.
  - intros Hl. destruct (Py.contains "2024" y) eqn:E; [|by split].
    exfalso. apply Hl. by apply contains_spec.
  - eexists. split; [reflexivity|]. split; [reflexivity|].
    destruct (if Py.contains "2024" y then _ else _) as [df|]; cbn.
    + split; [done|]. by exists df.
    + by rewrite app_nil_r.
Qed.

(** What the chatbot panel does, for the model the selector returns. *)
Lemma chatbot_panel_eq (ui : UI) (w : World) (name : string) :
  widget_selectbox model_names 1 (ui_model ui) = PStr name ->
  chatbot_panel ui w
  = (Ok tt,
     {| session_state := session_state w; heap := heap w;
        trace :=
          trace w
          ++ [Ev_divider; Ev_expander "Chatbot (Optionnel)";
              Ev_checkbox "Activer le chat bot" false;
              Ev_selectbox "Modèle" model_names 1 None;
              Ev_text_input "Entrez une clé API 🔑";
              Ev_info "ℹ️ Votre clé API n'est pas conservée. Elle sera automatiquement supprimée lorsque vous fermerez ou rechargerez cette page."]
          ++ (if default false (ui_chatbot ui) then
                if Py.contains "GPT" name then
                  if String.eqb (ui_api_key ui) "" then
                    [Ev_warning "⚠️ Entrez une clé API **Open AI**."]
                  else []
                else [Ev_error "⚠️ Ce modèle n'est pas encore disponible. Veuillez utiliser GPT."]
              else []);
        self := with_model_api_key (ui_api_key ui)
                  (with_selected_model (PStr name)
                     (with_chatbot_checkbox (default false (ui_chatbot ui))
                        (self w))) |}).
Proof.
  intros Hname. destruct w as [ss h t a].
  unfold chatbot_panel. rewrite Hname. unfold emit, bind. cbn.
  destruct (default false (ui_chatbot ui)); cbn;
    [destruct (Py.contains "GPT" name); cbn;
     [destruct (String.eqb (ui_api_key ui) ""); cbn|]|];
    rewrite <- ?app_assoc; cbn; rewrite ?app_nil_r; reflexivity.
Qed.

(** X5: the chatbot panel never raises and touches neither the store nor
    the heap. The model it retains is one of the five offered, GPT 4 when
    the selector is untouched, and the key is retained as typed. It shows
    at most one message: the error exactly when the chat bot is enabled
    with one of the three models that are not GPT, the warning exactly
    when it is enabled with a GPT model and no key is typed. *)
Theorem chatbot_panel_messages (ui : UI) (w : World) :
  let w' := (chatbot_panel ui w).2 in
  let enabled := default false (ui_chatbot ui) in
  (chatbot_panel ui w).1 = Ok tt
  /\ session_state w' = session_state w
  /\ heap w' = heap w
  /\ chatbot_checkbox (self w') = Some enabled
  /\ model_api_key (self w') = Some (ui_api_key ui)
  /\ exists name evs,
       name ∈ model_names
       /\ selected_model (self w') = Some (PStr name)
       /\ (ui_model ui = None -> name = "GPT 4")
       /\ trace w' = trace w ++ evs
       /\ widget_keys evs = []
       /\ List.filter is_message evs
          = if enabled then
              if bool_decide (name ∈ ["GPT 3.5"; "GPT 4"]) then
                if bool_decide (ui_api_key ui = "") then
                  [Ev_warning "⚠️ Entrez une clé API **Open AI**."]
                else []
              else [Ev_error "⚠️ Ce modèle n'est pas encore disponible. Veuillez utiliser GPT."]
            else [].
Proof.
  cbv zeta.
  destruct (widget_selectbox_elem model_names 1 (ui_model ui))
    as (name & Hname & Hin); [simpl; lia|].
  rewrite (chatbot_panel_eq ui w name Hname).
  cbn [fst snd session_state heap trace self chatbot_checkbox model_api_key
       selected_model with_model_api_key with_selected_model
       with_chatbot_checkbox].
  repeat (split; [reflexivity|]).
  eexists name, _. split; [done|]. split; [done|].
  split; [intros Hn; rewrite Hn in Hname; cbn in Hname; congruence|].
  split; [reflexivity|].
  assert (Py.contains "GPT" name = bool_decide (name ∈ ["GPT 3.5"; "GPT 4"]))
    as ->.
  { unfold model_names in Hin.
    repeat (apply elem_of_cons in Hin as [->|Hin]); try done.
    by apply elem_of_nil in Hin. }
  assert (String.eqb (ui_api_key ui) "" = bool_decide (ui_api_key ui = ""))
    as ->.
  { destruct (String.eqb_spec (ui_api_key ui) "") as [E|E].
    - by rewrite bool_decide_eq_true_2.
    - by rewrite bool_decide_eq_false_2. }
  destruct (default false (ui_chatbot ui)); [|by split].
  destruct (bool_decide (name ∈ ["GPT 3.5"; "GPT 4"])); [|by split].
  by destruct (bool_decide (ui_api_key ui = "")).
Qed.

#[local] Arguments chatbot_panel : simpl never.
#[local] Arguments normalize_in_place : simpl never.
#[local] Arguments normalization_engine : simpl never.

(** Lines 144-204 on a fetched frame, event by event. *)
Lemma prepare_frame_eq (ui : UI) (d : pyval) (y : string) (original : nat)
    (df : DataFrame) (w : World) :
  heap w !! original = Some df ->
  let flag := default true (ui_normalize ui) in
  let key := "local_type_" +:+ py_str d +:+ "_" +:+ y in
  let a1 :=
    with_normalize_by_area flag
      (with_selected_local_type
         (widget_selectbox (type_filter df) 0 (ui_local_type ui))
         (with_local_types (type_filter df)
            (with_properties_input (Some (length (heap w))) (self w)))) in
  let t1 :=
    trace w
    ++ [Ev_selectbox "Type de bien" (type_filter df) 0 (Some key);
        Ev_checkbox "Prix au m²" true] in
  let ss1 :=
    <[key := widget_selectbox (type_filter df) 0 (ui_local_type ui)]>
      (session_state w) in
  match normalization_engine wild flag df with
  | Raise e =>
      prepare_frame ui d y original w
      = (Raise e,
         {| session_state := ss1; heap := heap w ++ [df];
            trace := t1; self := a1 |})
  | Ok out =>
      exists w',
        chatbot_panel ui
          {| session_state := ss1; heap := heap w ++ [out];
             trace := t1 ++ [Ev_multiselect
                               "Supprimer ou ajouter des graphiques"
                               plot_names plot_names];
             self := with_selected_plots
                       (widget_multiselect plot_names plot_names (ui_plots ui))
                       a1 |}
        = (Ok tt, w')
        /\ prepare_frame ui d y original w = (Ok tt, w')
  end.
Proof.
  intros Hdf. cbv zeta. destruct w as [ss h t a]. simpl in Hdf.
  unfold prepare_frame.
  destruct (default true (ui_normalize ui)) eqn:Eflag.
  - unfold df_copy, deref, alloc, get_heap, put_heap, or_raise, ret, bind.
    cbn. rewrite Hdf. cbn. rewrite list_lookup_middle by done. cbn.
    erewrite normalize_in_place_eq by (cbn; by apply list_lookup_middle).
    destruct (normalization_engine wild true df) as [out|e] eqn:Eng; cbn.
    + replace (<[length h:=out]> (h ++ [df])) with (h ++ [out])
        by (replace (length h) with (length h + 0) by lia;
            by rewrite insert_app_r).
      rewrite <- !app_assoc. cbn.
      match goal with |- context [chatbot_panel ui ?w0] =>
        destruct (chatbot_panel_spec ui w0) as (evs & a' & Hc & _) end.
      rewrite Hc. eexists. by split.
    + by rewrite <- !app_assoc.
  - unfold df_copy, deref, alloc, get_heap, put_heap, or_raise, ret, bind.
    cbn. rewrite Hdf. cbn. rewrite list_lookup_middle by done. cbn.
    change (normalization_engine wild false df) with (Ok df). cbn.
    rewrite <- !app_assoc. cbn.
    match goal with |- context [chatbot_panel ui ?w0] =>
      destruct (chatbot_panel_spec ui w0) as (evs & a' & Hc & _) end.
    rewrite Hc. eexists. by split.
Qed.

Lemma prepare_frame_attributes (ui : UI) (d : pyval) (y : string)
    (original : nat) (df : DataFrame) (w : World) :
  heap w !! original = Some df ->
  let a' := self (prepare_frame ui d y original w).2 in
  properties_input a' = Some (Some (length (heap w)))
  /\ local_types a' = Some (type_filter df)
  /\ selected_local_type a'
     = Some (widget_selectbox (type_filter df) 0 (ui_local_type ui))
  /\ normalize_by_area a' = Some (default true (ui_normalize ui)).
Proof.
  intros Hdf. pose proof (prepare_frame_eq ui d y original df w Hdf) as H.
  cbv zeta in *.
  destruct (normalization_engine wild (default true (ui_normalize ui)) df).
  - destruct H as (w' & Hc & ->).
    match type of Hc with chatbot_panel ui ?w0 = _ =>
      destruct (chatbot_panel_spec ui w0) as (evs & a' & Hc' & _ & Hs) end.
    rewrite Hc' in Hc. injection Hc as <-.
    destruct Hs as (_ & _ & _ & _ & H5 & H6 & H7 & H8 & _).
    cbn [snd self] in *. by rewrite H5, H6, H7, H8.
  - by rewrite H.
Qed.

Lemma widget_selectbox_nil (index : nat) (pick : option string) :
  widget_selectbox [] index pick = PNone.
Proof.
  unfold widget_selectbox. destruct pick as [p|]; [|by destruct index].
  rewrite bool_decide_eq_false_2 by apply not_elem_of_nil. by destruct index.
Qed.

(** X6: once a frame is fetched, [self.local_types] is its list of types
    and [self.selected_local_type] is always consistent with it: [None]
    exactly when the frame has no row, and otherwise the type of one of
    its rows, the user's pick when it is in the list and the least type
    of the list when the selector is untouched. *)
Theorem selected_type_is_an_option (ui : UI) (d : pyval) (y : string)
    (original : nat) (df : DataFrame) (w : World) :
  heap w !! original = Some df ->
  let a' := self (prepare_frame ui d y original w).2 in
  local_types a' = Some (type_filter df)
  /\ exists sel,
       selected_local_type a' = Some sel
       /\ (df = [] -> sel = PNone)
       /\ (df <> [] ->
           exists t,
             sel = PStr t
             /\ t ∈ type_filter df
             /\ (exists r, r ∈ df /\ type_local r = t)
             /\ (forall p, ui_local_type ui = Some p ->
                  p ∈ type_filter df -> t = p)
             /\ (ui_local_type ui = None ->
                 forall t', t' ∈ type_filter df -> t = t' \/ str_lt t t')).
Proof.
  intros Hdf. cbv zeta.
  destruct (prepare_frame_attributes ui d y original df w Hdf)
    as (_ & Hlt & Hsel & _). cbv zeta in *.
  split; [done|]. eexists. split; [exact Hsel|]. split.
  - intros ->. apply widget_selectbox_nil.
  - intros Hne.
    assert (0 < length (type_filter df)) as Hlen.
    { destruct (type_filter df) eqn:E; [|simpl; lia].
      by apply type_filter_nil in E. }
    destruct (widget_selectbox_elem (type_filter df) 0 (ui_local_type ui) Hlen)
      as (t & Ht & Hin).
    exists t. split; [done|]. split; [done|]. split; [|split].
    + unfold type_filter in Hin.
      rewrite sorted_Permutation, elem_of_unique in Hin.
      apply list_elem_of_fmap in Hin as (r & -> & Hr). by exists r.
    + intros p Hp Hpin. rewrite Hp, (widget_selectbox_pick _ _ _ Hpin) in Ht.
      congruence.
    + intros Hn t' Hin'. rewrite Hn in Ht. cbn in Ht.
      pose proof (sorted_StronglySorted _ (unique_NoDup (map type_local df)))
        as Hs. fold (type_filter df) in Hs.
      destruct (type_filter df) as [|t0 ts]; [done|].
      cbn in Ht. injection Ht as <-.
      apply StronglySorted_inv in Hs as [_ Hs]. rewrite Forall_forall in Hs.
      apply elem_of_cons in Hin' as [->|Hin']; [by left|right; by apply Hs].
Qed.

Lemma key_inj (a a' b b' : string) :
  Py.contains "_" a = false -> Py.contains "_" a' = false ->
  a +:+ "_" +:+ b = a' +:+ "_" +:+ b' -> a = a' /\ b = b'.
Proof.
  revert a'. induction a as [|c a IH]; intros [|c' a'] Ha Ha' E.
  - by injection E.
  - rewrite str_app_cons in E. cbn in E. injection E as <- _.
    by apply contains_char_cons in Ha' as [? _].
  - rewrite str_app_cons in E. cbn in E. injection E as -> _.
    by apply contains_char_cons in Ha as [? _].
  - rewrite !str_app_cons in E. injection E as -> E.
    apply contains_char_cons in Ha as [_ Ha].
    apply contains_char_cons in Ha' as [_ Ha'].
    destruct (IH a' Ha Ha' E) as [-> ->]. by split.
Qed.

Lemma department_codes_no_underscore (code : string) :
  code ∈ department_codes -> Py.contains "_" code = false.
Proof.
  intros H. apply list_elem_of_In in H.
  assert (forallb (fun c => negb (Py.contains "_" c)) department_codes = true)
    as Hall by (vm_compute; reflexivity).
  rewrite forallb_forall in Hall. specialize (Hall code H).
  by apply negb_true_iff in Hall.
Qed.

(** X7: the type selector is the one widget of lines 144-204 registered
    under a key, and that key tells the configuration: two keys made from
    department codes are equal only for the same department and the same
    year, so the type chosen for one configuration is never taken for
    another. *)
Theorem type_selector_key (ui : UI) (code y : string) (original : nat)
    (df : DataFrame) (w : World) :
  heap w !! original = Some df ->
  widget_keys (trace (prepare_frame ui (PStr code) y original w).2)
  = widget_keys (trace w) ++ ["local_type_" +:+ code +:+ "_" +:+ y]
  /\ forall code' y',
       code ∈ department_codes -> code' ∈ department_codes ->
       "local_type_" +:+ code +:+ "_" +:+ y
       = "local_type_" +:+ code' +:+ "_" +:+ y' ->
       code = code' /\ y = y'.
Proof.
  intros Hdf. split.
  - pose proof (prepare_frame_eq ui (PStr code) y original df w Hdf) as H.
    cbv zeta in H. unfold widget_keys.
    destruct (normalization_engine wild (default true (ui_normalize ui)) df).
    + destruct H as (w' & Hc & ->).
      destruct (widget_selectbox_elem model_names 1 (ui_model ui))
        as (name & Hname & _); [simpl; lia|].
      rewrite (chatbot_panel_eq _ _ name Hname) in Hc. injection Hc as <-.
      cbn [snd trace]. rewrite !omap_app. cbn.
      destruct (default false (ui_chatbot ui)); cbn; [|by rewrite !app_nil_r].
      destruct (Py.contains "GPT" name); cbn; [|by rewrite !app_nil_r].
      destruct (String.eqb (ui_api_key ui) ""); cbn; by rewrite !app_nil_r.
    + rewrite H. cbn [snd trace]. by rewrite omap_app.
  - intros code' y' Hc Hc' E.
    change ("local_type_" +:+ ?x) with
      (String "l" (String "o" (String "c" (String "a" (String "l" (String "_"
        (String "t" (String "y" (String "p" (String "e" (String "_" x)))))))))))
      in E.
    injection E as E.
    by apply key_inj in E; [|apply department_codes_no_underscore..].
Qed.

(** X10: when the box is ticked and the price computed for one record of
    the fetched frame is an infinity or NaN, lines 144-204 end on the
    conversion's error. By then the type list, the selected type and the
    flag are set and the two widgets drawn; the copy still holds the
    frame as fetched, and the plot selector and the chatbot panel are
    never reached. *)
Theorem failed_conversion_leaves_the_copy_raw (ui : UI) (d : pyval)
    (y : string) (original : nat) (df : DataFrame) (r : Row) (w : World) :
  heap w !! original = Some df ->
  r ∈ df ->
  finite_price r = false ->
  default true (ui_normalize ui) = true ->
  let w' := (prepare_frame ui d y original w).2 in
  (prepare_frame ui d y original w).1 = Raise IntCastingNaNError
  /\ heap w' = heap w ++ [df]
  /\ properties_input (self w') = Some (Some (length (heap w)))
  /\ local_types (self w') = Some (type_filter df)
  /\ normalize_by_area (self w') = Some true
  /\ selected_plots (self w') = selected_plots (self w)
  /\ selected_model (self w') = selected_model (self w)
  /\ trace w'
     = trace w
       ++ [Ev_selectbox "Type de bien" (type_filter df) 0
             (Some ("local_type_" +:+ py_str d +:+ "_" +:+ y));
           Ev_checkbox "Prix au m²" true].
Proof.
  intros Hdf Hr Hnf Hflag. cbv zeta.
  pose proof (prepare_frame_eq ui d y original df w Hdf) as H.
  cbv zeta in H. rewrite Hflag in H.
  rewrite (normalization_engine_not_finite wild df) in H.
  - rewrite H. by cbn.
  - rewrite Forall_forall. intros Hall. specialize (Hall r Hr). congruence.
Qed.



(** X9: [__init__] ends on exactly one of three things. It draws the
    plots exactly when the run ends normally with at least one property
    type; it shows the sidebar message exactly when the run ends normally
    with a frame and an empty type list; otherwise it shows nothing. It
    never does both. *)
Theorem plots_or_message (ss : gmap string pyval) (ui : UI) :
  let r := (evaluate ss ui).1 in
  let w' := (evaluate ss ui).2 in
  (Ev_create_plots ∈ trace w'
   <-> r = Ok tt /\ exists t ts, local_types (self w') = Some (t :: ts))
  /\ ((exists msg, Ev_sidebar_error msg ∈ trace w')
      <-> r = Ok tt /\ local_types (self w') = Some [])
  /\ length (List.filter is_display (trace w')) <= 1.
Proof.
  cbv zeta.
  assert (forall quiet e,
            Forall (fun e => is_display e = false) quiet ->
            is_display e = true -> e ∉ quiet) as Hnot.
  { intros quiet e Hq He Hin. rewrite Forall_forall in Hq.
    specialize (Hq e Hin). congruence. }
  destruct (evaluate_paths ss ui) as (quiet & Hq & [H|[H|H]]); cbv zeta in H.
  - destruct H as (Hr & _ & ->). rewrite Hr, (filter_none _ _ Hq).
    split; [|split; [|simpl; lia]].
    + split; [intros Hin; by apply Hnot in Hin|by intros [? _]].
    + split; [intros [msg Hin]; by apply Hnot in Hin|by intros [? _]].
  - destruct H as (Hr & _ & Hl & _ & _ & _ & -> & _).
    rewrite Hl, (filter_none _ _ Hq).
    split; [|split; [|simpl; lia]].
    + split; [intros Hin; by apply Hnot in Hin|by intros [_ (? & ? & ?)]].
    + split; [intros [msg Hin]; by apply Hnot in Hin|by intros [_ ?]].
  - destruct H as (df & code & y & _ & _ & Hl & _ & _ & H). rewrite Hl.
    destruct (normalization_engine wild _ df); destruct H as [Hr Ht];
      rewrite Hr, Ht.
    + rewrite List.filter_app, (filter_none _ _ Hq).
      destruct (type_filter df) as [|t ts]; cbn.
      * split; [|split; [|lia]].
        -- split; [|by intros [_ (? & ? & ?)]].
           intros [Hin|Hin]%elem_of_app; [by apply Hnot in Hin|].
           by apply list_elem_of_singleton in Hin.
        -- split; [done|]. intros _. eexists. apply elem_of_app. right.
           by apply list_elem_of_singleton.
      * split; [|split; [|lia]].
        -- split; [by eauto|]. intros _. apply elem_of_app. right.
           by apply list_elem_of_singleton.
        -- split; [|by intros [_ ?]].
           intros [msg [Hin|Hin]%elem_of_app]; [by apply Hnot in Hin|].
           by apply list_elem_of_singleton in Hin.
    + rewrite (filter_none _ _ Hq). split; [|split; [|simpl; lia]].
      * split; [intros Hin; by apply Hnot in Hin|by intros [? _]].
      * split; [intros [msg Hin]; by apply Hnot in Hin|by intros [? _]].
Qed.

Lemma tracked_go_app_events (t : list event) :
  tracked_go false (map Sc_app t) = [].
Proof. induction t as [|e t IH]; simpl; [reflexivity|exact IH]. Qed.

(** X12: whatever the credentials, nothing happens while usage tracking
    is on: with credentials the script starts tracking and stops it
    before [App()] is built, so that every event of the application comes
    after the stop; without credentials it never starts. Tracking is
    started and stopped exactly when there are credentials. *)
Theorem nothing_is_tracked (firebase_cred : option string) (is_main : bool)
    (ss : gmap string pyval) (ui : UI) :
  let t := (script firebase_cred is_main ss ui).2 in
  tracked t = []
  /\ (Sc_start_tracking "sotisimmo_analytics" ∈ t <-> is_Some firebase_cred)
  /\ (Sc_stop_tracking "sotisimmo_analytics" ∈ t <-> is_Some firebase_cred)
  /\ (exists before,
        t = before
            ++ (if is_main then map Sc_app (trace (evaluate ss ui).2) else [])
        /\ Forall (fun e => forall a, e <> Sc_app a) before
        /\ tracked before = [])
  /\ (script firebase_cred is_main ss ui).1
     = if is_main then (evaluate ss ui).1 else Ok tt.
Proof.
  cbv zeta. unfold script, tracked.
  set (apps := trace (evaluate ss ui).2).
  assert (forall c, Sc_start_tracking c ∉ map Sc_app apps) as Hs.
  { intros c (a & ? & _)%list_elem_of_fmap. discriminate. }
  assert (forall c, Sc_stop_tracking c ∉ map Sc_app apps) as Hp.
  { intros c (a & ? & _)%list_elem_of_fmap. discriminate. }
  pose proof (tracked_go_app_events apps) as Ha.
  split; [|split; [|split; [|split; [|by destruct is_main]]]].
  - destruct firebase_cred as [cred|], is_main;
      cbn [fst snd open_tracking close_tracking app tracked_go];
      first [exact Ha|reflexivity].
  - destruct firebase_cred as [cred|], is_main;
      cbn [fst snd open_tracking close_tracking app];
      (split;
       [intros H;
        first [by eexists
              |exfalso;
               repeat (apply elem_of_cons in H as [H|H]; [discriminate H|]);
               first [by apply Hs in H|by apply elem_of_nil in H]]
       |intros [c Hc];
        first [discriminate Hc
              |repeat first [apply list_elem_of_here
                            |apply list_elem_of_further]]]).
  - destruct firebase_cred as [cred|], is_main;
      cbn [fst snd open_tracking close_tracking app];
      (split;
       [intros H;
        first [by eexists
              |exfalso;
               repeat (apply elem_of_cons in H as [H|H]; [discriminate H|]);
               first [by apply Hp in H|by apply elem_of_nil in H]]
       |intros [c Hc];
        first [discriminate Hc
              |repeat first [apply list_elem_of_here
                            |apply list_elem_of_further]]]).
  - exists ([Sc_firebase_credentials; Sc_azure_credentials;
             Sc_bigquery_credentials; Sc_data_URL]
            ++ open_tracking firebase_cred ++ close_tracking firebase_cred).
    split; [destruct is_main; cbn [snd]; [reflexivity|by rewrite app_nil_r]|].
    destruct firebase_cred as [cred|]; cbn;
      (split; [repeat constructor; discriminate|reflexivity]).
Qed.



(** X13: the type selector leaves its value in the store. After lines
    144-204 on a fetched frame, whether they end normally or on the
    conversion's error, the store is the one they started from with the
    selected type under the selector's key, local_type_<department>_<year>:
    that entry is the value of [self.selected_local_type], and no other
    key has changed. *)
Theorem type_selector_state (ui : UI) (d : pyval) (y : string)
    (original : nat) (df : DataFrame) (w : World) :
  heap w !! original = Some df ->
  let w' := (prepare_frame ui d y original w).2 in
  let key := "local_type_" +:+ py_str d +:+ "_" +:+ y in
  exists selected,
    selected_local_type (self w') = Some selected
    /\ session_state w' !! key = Some selected
    /\ session_state w' = <[key := selected]> (session_state w)
    /\ forall other, other <> key ->
         session_state w' !! other = session_state w !! other.
Proof.
  intros Hdf. cbv zeta.
  destruct (prepare_frame_spec ui d y original df w Hdf)
    as (r & df' & evs & a' & -> & _ & _ & _ & _ & _ & _ & _ & _ & Hs).
  cbv zeta in Hs. cbn [snd self session_state].
  exists (widget_selectbox (type_filter df) 0 (ui_local_type ui)).
  split; [exact Hs|]. split; [by rewrite lookup_insert_eq|].
  split; [reflexivity|].
  intros other Hne. by rewrite lookup_insert_ne.
Qed.

End FurtherFacts.

(** ** The further properties on the sample data *)

Lemma selected_department_is_a_code_witness :
  (select_department (ext := Sample.ext) (Sample.pick "2A" "2023")
     (Sample.start ∅)).1 = Ok (PStr "2A").
Proof.
  destruct (@selected_department_is_a_code Sample.ext (Sample.pick "2A" "2023")
              (Sample.start ∅))
    as (_ & _ & _ & _ & _ & _ & code & Hr & _ & _ & Hpick & _).
  rewrite Hr. f_equal. f_equal. apply Hpick; [reflexivity|].
  apply (bool_decide_unpack _). vm_compute. exact I.
Defined.

Lemma selected_year_is_last_word_witness :
  exists y,
    (select_year (ext := Sample.ext) (Sample.pick "06" "2022")
       (Sample.start ∅)).1 = Ok y
    /\ Py.contains " " y = false.
Proof.
  destruct (@selected_year_is_last_word Sample.ext (Sample.pick "06" "2022")
              (Sample.start ∅) (PInt 2022)) as (y & H1 & _ & H2 & _).
  - apply (bool_decide_unpack _). vm_compute. exact I.
  - apply (bool_decide_unpack _). vm_compute. exact I.
  - reflexivity.
  - by exists y.
Defined.

Lemma year_selector_needs_2023_witness :
  (initial_request (ext := Sample2.old_catalogue) Sample.untouched
     {| session_state := ∅; heap := []; trace := []; self := new_App |}).1
  = Raise ValueError.
Proof.
  destruct (@year_selector_needs_2023 Sample2.old_catalogue Sample.untouched
              {| session_state := ∅; heap := []; trace := [];
                 self := new_App |}) as [H _].
  apply H. intros entry Hin.
  repeat (apply elem_of_cons in Hin as [->|Hin]; [discriminate|]).
  by apply elem_of_nil in Hin.
Defined.

Lemma resolver_goes_by_substring_witness :
  fetch_calls
    (trace (load_data (ext := Sample.ext) (PStr "06") "2024-T1"
              (Sample.start ∅)).2)
  = [Ev_fetch_data_BigQuery (tt : @Cred Sample.ext) (PStr "06")].
Proof.
  destruct (@resolver_goes_by_substring Sample.ext (PStr "06") "2024-T1"
              (Sample.start ∅)) as (H & _ & _).
  apply H. by exists "", "-T1".
Defined.

Lemma chatbot_panel_messages_witness :
  (chatbot_panel (ext := Sample.ext) Sample2.chat_without_key
     (Sample.start ∅)).1 = Ok tt.
Proof.
  apply (@chatbot_panel_messages Sample.ext Sample2.chat_without_key
           (Sample.start ∅)).
Defined.

Lemma selected_type_is_an_option_witness :
  local_types
    (self (prepare_frame (ext := Sample.ext) Sample.untouched (PStr "06")
             "2023" 0 (Sample2.holding Sample.frame)).2)
  = Some (type_filter Sample.frame).
Proof.
  apply (@selected_type_is_an_option Sample.ext Sample.untouched (PStr "06")
           "2023" 0 Sample.frame (Sample2.holding Sample.frame) eq_refl).
Defined.

Lemma type_selector_key_witness :
  widget_keys
    (trace (prepare_frame (ext := Sample.ext) Sample.untouched (PStr "06")
              "2023" 0 (Sample2.holding Sample.frame)).2)
  = ["local_type_06_2023"].
Proof.
  apply (@type_selector_key Sample.ext Sample.untouched "06" "2023" 0
           Sample.frame (Sample2.holding Sample.frame) eq_refl).
Defined.

Lemma failed_conversion_leaves_the_copy_raw_witness :
  heap (prepare_frame (ext := Sample.ext) Sample.untouched (PStr "06") "2023"
          0 (Sample2.holding [Sample.house; Sample.no_area])).2
  = [[Sample.house; Sample.no_area]; [Sample.house; Sample.no_area]].
Proof.
  apply (@failed_conversion_leaves_the_copy_raw Sample.ext Sample.untouched
           (PStr "06") "2023" 0 [Sample.house; Sample.no_area] Sample.no_area
           (Sample2.holding [Sample.house; Sample.no_area]) eq_refl).
  - apply list_elem_of_further, list_elem_of_here.
  - reflexivity.
  - reflexivity.
Defined.


Lemma type_filter_is_canonical_witness :
  type_filter Sample.frame = type_filter [Sample.flat; Sample.house].
Proof.
  apply (type_filter_is_canonical Sample.frame [Sample.flat; Sample.house]).
  intros t. cbn. rewrite !elem_of_cons, !elem_of_nil. tauto.
Defined.

Lemma type_selector_state_witness :
  session_state
    (prepare_frame (ext := Sample.ext) Sample.untouched (PStr "06") "2023" 0
       (Sample2.holding Sample.frame)).2 !! "local_type_06_2023"
  = Some (PStr "Appartement").
Proof.
  destruct (@type_selector_state Sample.ext Sample.untouched (PStr "06")
              "2023" 0 Sample.frame (Sample2.holding Sample.frame) eq_refl)
    as (selected & Hs & Hk & _).
  change ("local_type_" +:+ py_str (PStr "06") +:+ "_" +:+ "2023")
    with "local_type_06_2023" in Hk.
  rewrite Hk. rewrite <- Hs. vm_compute. reflexivity.
Defined.
